(** * Colorhymn viewers: a shallow embedding of [viewer/colorhymn_rich.py]
      and [viewer/colorhymn_viewer.py]

    The two scripts ask the external classifier ([mix colorize <file>]) for a
    JSON document and draw it, either once on the terminal (Rich, or raw ANSI
    escapes) or inside a Textual application.

    The embedding keeps Python's dynamic typing: what [json.loads] returns is
    a [pyval], every subscript, iteration and unpacking can raise, and the
    functions of the scripts are written over an explicit output log.  What
    the scripts take from their libraries and from the interpreter without
    fixing it themselves (the JSON decoder, the wording of the interpreter's
    error messages, [repr] of a string, the install directory) is gathered in
    a [Runtime] record that every statement quantifies over.  Textual is not
    in the repository either: what it does with the keys it binds itself,
    and whether it can render what the viewer has mounted, is left open in a
    [Framework] record that the statements about key presses quantify over.

    A [str] is held in a Rocq string, one character per byte.  This is exact
    for ASCII text.  A character outside ASCII (the box-drawing characters of
    the headers, or whatever a log line holds) is the sequence of its UTF-8
    bytes, which changes nothing where text is only concatenated, searched
    for a brace or printed; it would matter where a [str] is sliced, iterated
    or measured, which the scripts do on colors and on tokens only. *)

From Stdlib Require Import String Ascii List ZArith QArith Bool Lia.
From Stdlib Require Import DecimalString.
Import ListNotations.

Local Open Scope list_scope.
Local Open Scope string_scope.
Set Warnings "-register-all".

(* ================================================================== *)
(** ** Text helpers *)

Module Str.

(** The ESC control character, written [\033] in the scripts. *)
Definition ESC : string := String (ascii_of_nat 27) "".

(** The double quote. *)
Definition DQ : string := String (ascii_of_nat 34) "".

(** The line feed, written [\n] in the scripts. *)
Definition LF : string := String (ascii_of_nat 10) "".

Fixpoint spaces (n : nat) : string :=
  match n with
  | O => ""
  | S k => String " " (spaces k)
  end.

(** [str.rjust] with a space fill: also what the format width does to a
    number, which is never truncated. *)
Definition rjust (width : nat) (s : string) : string :=
  spaces (width - String.length s) ++ s.

(** [str(n)] of an [int]. *)
Definition decimal (z : Z) : string :=
  NilZero.string_of_int (Z.to_int z).

(** [str.find] of a single character: the index of its first occurrence. *)
Fixpoint find (c : ascii) (s : string) : option nat :=
  match s with
  | EmptyString => None
  | String a rest =>
      if Ascii.eqb a c then Some O
      else match find c rest with
           | Some k => Some (S k)
           | None => None
           end
  end.

(** [s[k:]]. *)
Fixpoint drop (k : nat) (s : string) : string :=
  match k, s with
  | O, _ => s
  | S k', EmptyString => EmptyString
  | S k', String _ rest => drop k' rest
  end.

(** [s[:k]]. *)
Fixpoint take (k : nat) (s : string) : string :=
  match k, s with
  | O, _ => EmptyString
  | S k', EmptyString => EmptyString
  | S k', String a rest => String a (take k' rest)
  end.

(** [s[i:j]] for constant bounds [0 <= i], [0 <= j]. *)
Definition slice (i j : nat) (s : string) : string :=
  take (j - i) (drop i s).

Fixpoint chars (s : string) : list string :=
  match s with
  | EmptyString => []
  | String a rest => String a "" :: chars rest
  end.

Definition join (parts : list string) : string :=
  fold_right String.append "" parts.

Fixpoint join_with (sep : string) (parts : list string) : string :=
  match parts with
  | [] => ""
  | [p] => p
  | p :: rest => p ++ sep ++ join_with sep rest
  end.

Fixpoint occurs (c : ascii) (s : string) : bool :=
  match s with
  | EmptyString => false
  | String a rest => Ascii.eqb a c || occurs c rest
  end.

End Str.

(* ================================================================== *)
(** ** Python values, exceptions and the operations the scripts apply *)

Module Py.

(** What [json.loads] can return.  A [float] is carried by its [repr], the
    only thing the scripts can observe of it; a [dict] keeps its keys in
    insertion order (keys are distinct; a lookup takes the first binding). *)
Inductive pyval : Type :=
| PNone
| PBool (b : bool)
| PInt (z : Z)
| PFloat (r : string)
| PStr (s : string)
| PList (l : list pyval)
| PDict (d : list (string * pyval)).

(** Errors raised by the interpreter (or by Rich) while an expression of
    the scripts is evaluated.  They are [TypeError], [ValueError] or
    [KeyError] according to the case; the scripts never tell them apart. *)
Inductive builtin_error : Type :=
| NotSubscriptable (v : pyval)          (* v[k], v not a container *)
| BadIndex (v : pyval) (k : string)     (* a list or a str indexed by a str *)
| MissingKey (k : string)               (* KeyError *)
| BadSlice (v : pyval)                  (* d[i:j] on a dict *)
| NotIterable (v : pyval)               (* for x in v, v a scalar *)
| UnpackCount (expected got : nat)      (* a, b, c = v with len(v) <> 3 *)
| Unhashable (v : pyval)                (* a list or a dict used as a key *)
| IntNonString (v : pyval)              (* int(v, 16), v not a str *)
| InvalidLiteral (s : string)           (* int(s, 16), s not a numeral *)
| NotText (v : pyval).                  (* Text.append of a non-str *)

(** The exceptions the scripts distinguish in their [except] clauses. *)
Inductive exn : Type :=
| TimeoutExpired (cmd : list string) (timeout : Z)
| JSONDecodeError (msg : string)
| ValueError (msg : string)
| Builtin (b : builtin_error)
| OtherException (msg : string).

Inductive result (A : Type) : Type :=
| Ok (a : A)
| Raise (e : exn).
Arguments Ok {A} a.
Arguments Raise {A} e.

Definition bind {A B} (r : result A) (k : A -> result B) : result B :=
  match r with
  | Ok a => k a
  | Raise e => Raise e
  end.

(** What the scripts take from their environment. *)
Record Runtime : Type := {
  json_loads : string -> result pyval;    (* json.loads *)
  str_repr : string -> string;            (* repr of a str *)
  error_text : builtin_error -> string;   (* str(e) of an interpreter error *)
  install_root : string                   (* Path(__file__).parent.parent *)
}.

(** [bool(v)]. *)
Definition truthy (v : pyval) : bool :=
  match v with
  | PNone => false
  | PBool b => b
  | PInt z => negb (Z.eqb z 0)
  | PFloat r => negb (String.eqb r "0.0" || String.eqb r "-0.0")
  | PStr s => negb (String.eqb s "")
  | PList l => match l with [] => false | _ => true end
  | PDict d => match d with [] => false | _ => true end
  end.

Fixpoint assoc (k : string) (d : list (string * pyval)) : option pyval :=
  match d with
  | [] => None
  | (k', v) :: rest => if String.eqb k' k then Some v else assoc k rest
  end.

(** [v[k]] for a string key [k]. *)
Definition getitem (v : pyval) (k : string) : result pyval :=
  match v with
  | PDict d =>
      match assoc k d with
      | Some x => Ok x
      | None => Raise (Builtin (MissingKey k))
      end
  | PList _ | PStr _ => Raise (Builtin (BadIndex v k))
  | _ => Raise (Builtin (NotSubscriptable v))
  end.

(** The elements a [for] loop over [v] visits. *)
Definition iter (v : pyval) : result (list pyval) :=
  match v with
  | PList l => Ok l
  | PStr s => Ok (map PStr (Str.chars s))
  | PDict d => Ok (map (fun kv => PStr (fst kv)) d)
  | _ => Raise (Builtin (NotIterable v))
  end.

(** [a, b, c = v]. *)
Definition unpack3 (v : pyval) : result (pyval * pyval * pyval) :=
  match iter v with
  | Ok [a; b; c] => Ok (a, b, c)
  | Ok l => Raise (Builtin (UnpackCount 3 (List.length l)))
  | Raise e => Raise e
  end.

(** [v[i:j]] for constant bounds. *)
Definition slice (v : pyval) (i j : nat) : result pyval :=
  match v with
  | PStr s => Ok (PStr (Str.slice i j s))
  | PList l => Ok (PList (firstn (j - i) (skipn i l)))
  | PDict _ => Raise (Builtin (BadSlice v))
  | _ => Raise (Builtin (NotSubscriptable v))
  end.

(** [dict.get(v, default)] on a dict with string keys: an unhashable key
    raises, any other key that is not a string is simply absent. *)
Definition dict_get (table : list (string * string)) (v : pyval)
           (default : string) : result string :=
  match v with
  | PStr s =>
      match find (fun kv => String.eqb (fst kv) s) table with
      | Some kv => Ok (snd kv)
      | None => Ok default
      end
  | PList _ | PDict _ => Raise (Builtin (Unhashable v))
  | _ => Ok default
  end.

(** *** [int(s, 16)]

    The numeral grammar of CPython for base 16: blanks around, one optional
    sign, an optional [0x] prefix, then hexadecimal digits that single
    underscores may separate.  The model reads ASCII text; CPython also
    takes the decimal digits and blanks of other scripts, which the model
    rejects. *)

Definition is_space (a : ascii) : bool :=
  let n := nat_of_ascii a in
  ((9 <=? n)%nat && (n <=? 13)%nat) || (n =? 32)%nat.

Definition hex_digit (a : ascii) : option Z :=
  let n := Z.of_nat (nat_of_ascii a) in
  if ((48 <=? n) && (n <=? 57))%Z then Some (n - 48)%Z
  else if ((65 <=? n) && (n <=? 70))%Z then Some (n - 55)%Z
  else if ((97 <=? n) && (n <=? 102))%Z then Some (n - 87)%Z
  else None.

Fixpoint lstrip (s : string) : string :=
  match s with
  | String a rest => if is_space a then lstrip rest else s
  | EmptyString => s
  end.

(** The digit run: [seen] tells whether a digit was read, [prev_us]
    whether the last character read was an underscore.  Returns the value
    and what follows the run. *)
Fixpoint digit_run (acc : Z) (seen prev_us : bool) (s : string)
  : option (Z * string) :=
  match s with
  | String a rest =>
      match hex_digit a with
      | Some d => digit_run (16 * acc + d)%Z true false rest
      | None =>
          if Ascii.eqb a "_"
          then if prev_us then None else digit_run acc seen true rest
          else if prev_us || negb seen then None else Some (acc, s)
      end
  | EmptyString => if prev_us || negb seen then None else Some (acc, s)
  end.

Definition skip_prefix (s : string) : string :=
  match s with
  | String "0" (String x rest) =>
      if Ascii.eqb x "x" || Ascii.eqb x "X"
      then match rest with
           | String "_" rest' => rest'
           | _ => rest
           end
      else s
  | _ => s
  end.

Definition parse_int16 (s : string) : option Z :=
  let s := lstrip s in
  let '(sign, s) :=
    match s with
    | String "+" rest => (1%Z, rest)
    | String "-" rest => ((-1)%Z, rest)
    | _ => (1%Z, s)
    end in
  let s := skip_prefix s in
  match s with
  | String "_" _ => None
  | _ =>
      match digit_run 0 false false s with
      | Some (n, rest) =>
          match lstrip rest with
          | EmptyString => Some (sign * n)%Z
          | _ => None
          end
      | None => None
      end
  end.

Definition int16 (v : pyval) : result Z :=
  match v with
  | PStr s =>
      match parse_int16 s with
      | Some z => Ok z
      | None => Raise (Builtin (InvalidLiteral s))
      end
  | _ => Raise (Builtin (IntNonString v))
  end.

(** *** Formatting *)

Section Format.
Variable rt : Runtime.

(** [repr(v)]. *)
Fixpoint py_repr (v : pyval) : string :=
  match v with
  | PNone => "None"
  | PBool true => "True"
  | PBool false => "False"
  | PInt z => Str.decimal z
  | PFloat r => r
  | PStr s => str_repr rt s
  | PList l => "[" ++ Str.join_with ", " (map py_repr l) ++ "]"
  | PDict d =>
      "{" ++ Str.join_with ", "
               (map (fun kv => let '(k, x) := kv in
                               str_repr rt k ++ ": " ++ py_repr x) d)
          ++ "}"
  end.

(** [str(v)], which is what an f-string field [{v}] inserts. *)
Definition py_str (v : pyval) : string :=
  match v with
  | PStr s => s
  | _ => py_repr v
  end.

(** [str(e)]. *)
Definition exn_str (e : exn) : string :=
  match e with
  | TimeoutExpired cmd timeout =>
      "Command '" ++ py_str (PList (map PStr cmd))
        ++ "' timed out after " ++ Str.decimal timeout ++ " seconds"
  | JSONDecodeError msg => msg
  | ValueError msg => msg
  | Builtin b => error_text rt b
  | OtherException msg => msg
  end.
End Format.

(** The format [{i:5d}]. *)
Definition fmt_5d (i : nat) : string :=
  Str.rjust 5 (Str.decimal (Z.of_nat i)).

(** *** Statements with effects: a state and a possible exception *)

Definition eff (St A : Type) : Type := St -> St * result A.

Definition eret {St A} (a : A) : eff St A := fun s => (s, Ok a).

Definition ebind {St A B} (m : eff St A) (k : A -> eff St B) : eff St B :=
  fun s =>
    match m s with
    | (s', Ok a) => k a s'
    | (s', Raise e) => (s', Raise e)
    end.

(** An expression that only reads. *)
Definition lift {St A} (r : result A) : eff St A := fun s => (s, r).

(** A statement that only writes. *)
Definition update {St} (f : St -> St) : eff St unit :=
  fun s => (f s, Ok tt).

(** [for i, x in enumerate(items, i0): body]. *)
Fixpoint for_enum {St} (i : nat) (items : list pyval)
         (body : nat -> pyval -> eff St unit) : eff St unit :=
  match items with
  | [] => eret tt
  | x :: rest => ebind (body i x) (fun _ => for_enum (S i) rest body)
  end.

(** [for x in items: acc = body(acc, x)], without effects on the state. *)
Fixpoint fold_items {A} (items : list pyval) (acc : A)
         (body : A -> pyval -> result A) : result A :=
  match items with
  | [] => Ok acc
  | x :: rest => bind (body acc x) (fun acc' => fold_items rest acc' body)
  end.

End Py.

Import Py.

Declare Scope py_scope.
Delimit Scope py_scope with py.
Notation "x <- e ;; k" := (bind e (fun x => k))
  (at level 61, e at next level, right associativity) : py_scope.
Notation "' pat <- e ;; k" := (bind e (fun x => match x with pat => k end))
  (at level 61, pat pattern, e at next level, right associativity) : py_scope.
Notation "x <~ e ;; k" := (ebind e (fun x => k))
  (at level 61, e at next level, right associativity) : py_scope.
Notation "e ;;; k" := (ebind e (fun _ => k))
  (at level 61, right associativity) : py_scope.
Local Open Scope py_scope.

(* ================================================================== *)
(** ** The libraries the scripts call *)

(** [rich.text.Text], as the runs given to it, in order, each with the
    style it was given.  A run is kept here as it was given; the text Rich
    holds of it is the run without the control characters Rich drops, which
    is what [plain] reads. *)
Module Rich.

Definition Text : Type := list (string * pyval).



(** [Text.append(text, style=style)]: Rich refuses what is not a str. *)
Definition append (t : Text) (text style : pyval) : result Text :=
  match text with
  | PStr s => Ok (t ++ [(s, style)])%list
  | _ => Raise (Builtin (NotText text))
  end.

(** [Text(s, style=style)]. *)
Definition styled (s : string) (style : pyval) : Text := [(s, style)].


End Rich.

(** [subprocess.run(args, capture_output=True, text=True, cwd=..., timeout=t)]
    as the Python library documents it.  The child is what the operating
    system makes of the command; the scripts only see what [run] reports. *)
Module Subprocess.

Record CompletedProcess : Type := {
  returncode : Z;
  stdout : string;
  stderr : string
}.

Inductive child : Type :=
| Fails (e : exn)                        (* run raises: no such program, ... *)
| Exits (seconds : Q) (p : CompletedProcess)
| Hangs.                                 (* never exits by itself *)

(** Where the child is once [run] is over. *)
Inductive fate : Type :=
| Ended      (* it exited and was waited for, or it never started *)
| Killed     (* run killed it when the timeout expired, and waited for it *)
| Running.   (* it is still there *)

Definition run (args : list string) (cwd : string) (timeout : Z) (c : child)
  : result CompletedProcess * fate :=
  match c with
  | Fails e => (Raise e, Ended)
  | Exits seconds p =>
      if Qle_bool seconds (inject_Z timeout)
      then (Ok p, Ended)
      else (Raise (TimeoutExpired args timeout), Killed)
  | Hangs => (Raise (TimeoutExpired args timeout), Killed)
  end.

(** The child runs for more than [timeout] seconds. *)
Definition outlives (timeout : Z) (c : child) : bool :=
  match c with
  | Fails _ => false
  | Exits seconds _ => negb (Qle_bool seconds (inject_Z timeout))
  | Hangs => true
  end.

End Subprocess.

Import Subprocess.

(* ================================================================== *)
(** ** [viewer/colorhymn_rich.py] *)

Module ColorhymnRich.

(** What one run of the script leaves behind. *)
Record Run : Type := {
  console : list Rich.Text;     (* what Console.print drew *)
  printed : list string;        (* the print() calls on standard output *)
  errors : list string;         (* the print() calls on standard error *)
  exit_code : Z
}.

(** The dict literal of [render_rich]. *)
Definition temp_styles : list (string * string) :=
  [ ("cool", "cyan"); ("neutral", "white"); ("elevated", "yellow");
    ("uneasy", "yellow"); ("troubled", "orange1"); ("warm", "orange1");
    ("critical", "red") ].

Section WithRuntime.
Variable rt : Runtime.

Definition colorize_file (file_path : string) (c : child)
  : result pyval * fate :=
  let (ran, left) :=
    Subprocess.run ["mix"; "colorize"; file_path] (install_root rt) 30 c in
  (result <- ran ;;
   match Str.find "{" (stdout result) with
   | None => Raise (ValueError ("No JSON output: " ++ stderr result))
   | Some json_start =>
       json_loads rt (Str.drop json_start (stdout result))
   end,
   left).

(** The header [Text] of [render_rich]. *)
Definition rich_header (meta : pyval) : result Rich.Text :=
  filename <- getitem meta "filename" ;;
  header <- Rich.append [] (PStr ("━━━ " ++ py_str rt filename ++ " "))
                        (PStr "bold") ;;
  line_count <- getitem meta "line_count" ;;
  header <- Rich.append header
              (PStr ("│ " ++ py_str rt line_count ++ " lines "))
              (PStr "dim") ;;
  header <- Rich.append header (PStr "│ temp: ") PNone ;;
  temperature <- getitem meta "temperature" ;;
  temp_style <- dict_get temp_styles temperature "white" ;;
  header <- Rich.append header temperature (PStr temp_style) ;;
  header <- Rich.append header (PStr " │ mood: ") PNone ;;
  let mood_style := temp_style in
  mood <- getitem meta "mood" ;;
  header <- Rich.append header mood (PStr mood_style) ;;
  Rich.append header (PStr " ━━━") PNone.

(** The [Text] of one line: the number, then the tokens. *)
Definition rich_line (i : nat) (line_tokens : pyval) : result Rich.Text :=
  text <- Rich.append [] (PStr (fmt_5d i ++ " ")) (PStr "dim") ;;
  tokens <- iter line_tokens ;;
  fold_items tokens text
    (fun text token =>
       '(_, value, color) <- unpack3 token ;;
       Rich.append text value color).

Definition render_rich (data : pyval) : eff (list Rich.Text) unit :=
  meta <~ lift (getitem data "metadata") ;;
  header <~ lift (rich_header meta) ;;
  update (fun console => console ++ [header])%list ;;;
  update (fun console => console ++ [[]])%list ;;;
  lines <~ lift (lines <- getitem data "lines" ;; iter lines) ;;
  for_enum 1 lines
    (fun i line_tokens =>
       text <~ lift (rich_line i line_tokens) ;;
       update (fun console => console ++ [text])%list).

(** The banner [render_ansi] prints, the line feed it ends with
    included. *)
Definition ansi_banner (meta : pyval) : result string :=
  filename <- getitem meta "filename" ;;
  line_count <- getitem meta "line_count" ;;
  temperature <- getitem meta "temperature" ;;
  mood <- getitem meta "mood" ;;
  Ok ("━━━ " ++ py_str rt filename ++ " │ " ++ py_str rt line_count
        ++ " lines │ temp: " ++ py_str rt temperature
        ++ " │ mood: " ++ py_str rt mood ++ " ━━━" ++ Str.LF).

(** One token of [render_ansi]: the part appended to [parts]. *)
Definition ansi_token (token : pyval) : result string :=
  '(_, value, color) <- unpack3 token ;;
  r <- (s <- slice color 1 3 ;; int16 s) ;;
  g <- (s <- slice color 3 5 ;; int16 s) ;;
  b <- (s <- slice color 5 7 ;; int16 s) ;;
  Ok (Str.ESC ++ "[38;2;" ++ Str.decimal r ++ ";" ++ Str.decimal g ++ ";"
        ++ Str.decimal b ++ "m" ++ py_str rt value ++ Str.ESC ++ "[0m").

(** The string [render_ansi] prints for line [i]. *)
Definition ansi_line (i : nat) (line_tokens : pyval) : result string :=
  tokens <- iter line_tokens ;;
  parts <- fold_items tokens
             [Str.ESC ++ "[2m" ++ fmt_5d i ++ Str.ESC ++ "[0m "]
             (fun parts token =>
                part <- ansi_token token ;;
                Ok (parts ++ [part])%list) ;;
  Ok (Str.join parts).

Definition render_ansi (data : pyval) : eff (list string) unit :=
  meta <~ lift (getitem data "metadata") ;;
  banner <~ lift (ansi_banner meta) ;;
  update (fun out => out ++ [banner])%list ;;;
  lines <~ lift (lines <- getitem data "lines" ;; iter lines) ;;
  for_enum 1 lines
    (fun i line_tokens =>
       row <~ lift (ansi_line i line_tokens) ;;
       update (fun out => out ++ [row])%list).

(** The body of [main()], with [sys.argv], the value of [RICH_AVAILABLE]
    and the behaviour of the classifier as inputs.  What the module does
    before [main] is called is in [run_module] below. *)
Definition main (argv : list string) (RICH_AVAILABLE : bool) (c : child)
  : Run :=
  match argv with
  | [] | [_] =>
      {| console := []; printed := [];
         errors := [ "Usage: colorhymn_rich.py <logfile>";
                     "       cat logfile | colorhymn_rich.py --stdin" ];
         exit_code := 1 |}
  | _ :: file_path :: _ =>
      match fst (colorize_file file_path c) with
      | Raise e =>
          {| console := []; printed := [];
             errors := [ "Error: " ++ exn_str rt e ]; exit_code := 1 |}
      | Ok data =>
          if RICH_AVAILABLE
          then match render_rich data [] with
               | (drawn, Ok _) =>
                   {| console := drawn; printed := []; errors := [];
                      exit_code := 0 |}
               | (drawn, Raise e) =>
                   {| console := drawn; printed := [];
                      errors := [ "Error: " ++ exn_str rt e ];
                      exit_code := 1 |}
               end
          else match render_ansi data [] with
               | (out, Ok _) =>
                   {| console := []; printed := out; errors := [];
                      exit_code := 0 |}
               | (out, Raise e) =>
                   {| console := []; printed := out;
                      errors := [ "Error: " ++ exn_str rt e ];
                      exit_code := 1 |}
               end
      end
  end.

(** The line the module prints on standard error when Rich cannot be
    imported. *)
Definition fallback_line : string :=
  "Rich not installed. Using raw ANSI output.".

(** The script from its first line: the import of Rich, the definitions,
    then [main()].  With Rich installed, [RICH_AVAILABLE] is true.  Without
    it the [except ImportError] clause first prints [fallback_line] on
    standard error; [def render_rich(data: dict, console: Console)] then
    names [Console], which was not imported: where annotations are evaluated
    when a function is defined (before Python 3.14) the module stops there on
    a [NameError], the interpreter prints its traceback [trace] on standard
    error and the exit code is 1, [main] never being called; otherwise
    [main] runs with [RICH_AVAILABLE] false. *)
Definition run_module (rich_installed eager_annotations : bool)
           (trace : string) (argv : list string) (c : child) : Run :=
  if rich_installed then main argv true c
  else if eager_annotations
       then {| console := []; printed := [];
               errors := [ fallback_line; trace ]; exit_code := 1 |}
       else let r := main argv false c in
            {| console := console r; printed := printed r;
               errors := fallback_line :: errors r;
               exit_code := exit_code r |}.

End WithRuntime.

End ColorhymnRich.

(* ================================================================== *)
(** ** Textual: the scrolling of the log container *)

Module Textual.

(** The viewport of the spec ([ViewportState]). *)
Record Viewport : Type := {
  scroll_offset : Z;
  viewport_height : Z
}.

(** Modelled from the spec: the largest offset, [max(0, line_count -
    viewport_height)]; Textual's [ScrollableContainer], which computes it,
    is not in src/. *)
Definition max_offset (line_count : Z) (v : Viewport) : Z :=
  Z.max 0 (line_count - viewport_height v).

(** Modelled from the spec: offsets are clamped to [[0, max_offset]];
    Textual's [scroll_to], which does it, is not in src/. *)
Definition scroll_to (line_count : Z) (v : Viewport) (y : Z) : Viewport :=
  {| scroll_offset := Z.max 0 (Z.min y (max_offset line_count v));
     viewport_height := viewport_height v |}.

(** Modelled from the spec: scroll-to-top sets the offset to 0
    ([ScrollableContainer.scroll_home] is not in src/). *)
Definition scroll_home (line_count : Z) (v : Viewport) : Viewport :=
  scroll_to line_count v 0.

(** Modelled from the spec: scroll-to-bottom sets the offset to the
    largest one ([ScrollableContainer.scroll_end] is not in src/). *)
Definition scroll_end (line_count : Z) (v : Viewport) : Viewport :=
  scroll_to line_count v (max_offset line_count v).

(** Modelled from the spec: line-down and line-up move the offset by [y],
    clamped ([ScrollableContainer.scroll_relative] is not in src/). *)
Definition scroll_relative (line_count : Z) (v : Viewport) (y : Z)
  : Viewport :=
  scroll_to line_count v (scroll_offset v + y).

(** Modelled from the spec: page-down moves the offset by a full viewport
    height, clamped ([ScrollableContainer.scroll_page_down] is not in
    src/). *)
Definition scroll_page_down (line_count : Z) (v : Viewport) : Viewport :=
  scroll_to line_count v (scroll_offset v + viewport_height v).

(** Modelled from the spec: page-up moves the offset back by a full
    viewport height, clamped ([ScrollableContainer.scroll_page_up] is not
    in src/). *)
Definition scroll_page_up (line_count : Z) (v : Viewport) : Viewport :=
  scroll_to line_count v (scroll_offset v - viewport_height v).

End Textual.

(* ================================================================== *)
(** ** [viewer/colorhymn_viewer.py] *)

Module ColorhymnViewer.

(** A call of [App.notify]. *)
Record Notification : Type := {
  message : string;
  severity : string
}.

(** The application: the attributes of [ColorhymnApp] and the widgets
    [compose] yields. *)
Record App : Type := {
  file_path : string;
  data : pyval;                        (* self.data, None at first *)
  notifications : list Notification;   (* what notify showed, in order *)
  info_bar : Rich.Text;                (* the content of #info-bar *)
  log_container : list Rich.Text;      (* the rows mounted in #log-container *)
  viewport : Textual.Viewport;         (* the scroll state of #log-container *)
  exited : bool
}.

(** [ColorhymnApp(file_path)], once composed, in a terminal that leaves
    [height] rows to the log. *)
Definition new_app (path : string) (height : Z) : App :=
  {| file_path := path; data := PNone; notifications := [];
     info_bar := []; log_container := [];
     viewport := {| Textual.scroll_offset := 0;
                    Textual.viewport_height := height |};
     exited := false |}.

Definition notify (msg sev : string) (self : App) : App :=
  {| file_path := file_path self; data := data self;
     notifications :=
       (notifications self ++ [{| message := msg; severity := sev |}])%list;
     info_bar := info_bar self; log_container := log_container self;
     viewport := viewport self; exited := exited self |}.

Definition set_data (d : pyval) (self : App) : App :=
  {| file_path := file_path self; data := d;
     notifications := notifications self;
     info_bar := info_bar self; log_container := log_container self;
     viewport := viewport self; exited := exited self |}.

(** [info_bar.update(text)]. *)
Definition info_bar_update (text : Rich.Text) (self : App) : App :=
  {| file_path := file_path self; data := data self;
     notifications := notifications self;
     info_bar := text; log_container := log_container self;
     viewport := viewport self; exited := exited self |}.

(** [container.mount(Static(text, markup=False))]. *)
Definition mount (text : Rich.Text) (self : App) : App :=
  {| file_path := file_path self; data := data self;
     notifications := notifications self;
     info_bar := info_bar self;
     log_container := (log_container self ++ [text])%list;
     viewport := viewport self; exited := exited self |}.

Definition set_viewport (v : Textual.Viewport) (self : App) : App :=
  {| file_path := file_path self; data := data self;
     notifications := notifications self;
     info_bar := info_bar self; log_container := log_container self;
     viewport := v; exited := exited self |}.

(** The rows mounted one after the other. *)
Definition mount_all (rows : list Rich.Text) (self : App) : App :=
  fold_left (fun app row => mount row app) rows self.

(** The number of rows the container scrolls over. *)
Definition row_count (self : App) : Z :=
  Z.of_nat (List.length (log_container self)).

(** The dict [temp_colors] of [render_log]. *)
Definition temp_colors : list (string * string) :=
  [ ("cool", "cyan"); ("neutral", "white"); ("elevated", "yellow");
    ("uneasy", "yellow"); ("troubled", "orange1"); ("warm", "orange1");
    ("critical", "red") ].

(** The key bindings: key, action. *)
Definition BINDINGS : list (string * string) :=
  [ ("q", "quit"); ("g", "scroll_top"); ("G", "scroll_bottom");
    ("/", "search"); ("j", "scroll_down"); ("k", "scroll_up");
    ("ctrl+d", "page_down"); ("ctrl+u", "page_up") ].

Definition action_scroll_top (self : App) : App :=
  set_viewport (Textual.scroll_home (row_count self) (viewport self)) self.

Definition action_scroll_bottom (self : App) : App :=
  set_viewport (Textual.scroll_end (row_count self) (viewport self)) self.

Definition action_scroll_down (self : App) : App :=
  set_viewport
    (Textual.scroll_relative (row_count self) (viewport self) 1) self.

Definition action_scroll_up (self : App) : App :=
  set_viewport
    (Textual.scroll_relative (row_count self) (viewport self) (-1)) self.

Definition action_page_down (self : App) : App :=
  set_viewport
    (Textual.scroll_page_down (row_count self) (viewport self)) self.

Definition action_page_up (self : App) : App :=
  set_viewport
    (Textual.scroll_page_up (row_count self) (viewport self)) self.

Definition action_search (self : App) : App :=
  notify "Search not yet implemented" "warning" self.

(** [App.action_quit], inherited from Textual: the application exits. *)
Definition action_quit (self : App) : App :=
  {| file_path := file_path self; data := data self;
     notifications := notifications self;
     info_bar := info_bar self; log_container := log_container self;
     viewport := viewport self; exited := true |}.

(** The method an action name of [BINDINGS] stands for. *)
Definition run_action (name : string) (self : App) : App :=
  if String.eqb name "quit" then action_quit self
  else if String.eqb name "scroll_top" then action_scroll_top self
  else if String.eqb name "scroll_bottom" then action_scroll_bottom self
  else if String.eqb name "search" then action_search self
  else if String.eqb name "scroll_down" then action_scroll_down self
  else if String.eqb name "scroll_up" then action_scroll_up self
  else if String.eqb name "page_down" then action_page_down self
  else if String.eqb name "page_up" then action_page_up self
  else self.

(** What Textual does on its own account, left open.  [ColorhymnApp]
    inherits the bindings of [textual.app.App], among them Textual's own
    quit key: [inherited_key] is what a key does that [BINDINGS] does not
    list.  Textual renders what is on the screen after [load_file] has
    returned and after every event, outside the [try] of [load_file], and a
    text it cannot render ends the application there: [can_display] tells
    whether it can render the application in a given state. *)
Record Framework : Type := {
  inherited_key : string -> App -> App;
  can_display : App -> bool
}.

(** The key is one of [BINDINGS]. *)
Definition bound (key : string) : bool :=
  existsb (fun b => String.eqb (fst b) key) BINDINGS.

(** A key press, as far as its handler: the action [BINDINGS] gives the key
    runs; a key [BINDINGS] does not list is Textual's, and an application
    that has exited handles none. *)
Definition press (fw : Framework) (key : string) (self : App) : App :=
  if exited self then self
  else match List.find (fun b => String.eqb (fst b) key) BINDINGS with
       | Some b => run_action (snd b) self
       | None => inherited_key fw key self
       end.

(** The application ends on an exception. *)
Definition crashed (self : App) : App :=
  {| file_path := file_path self; data := data self;
     notifications := notifications self;
     info_bar := info_bar self; log_container := log_container self;
     viewport := viewport self; exited := true |}.

(** The screen is rendered again: with the info bar and the container as
    [compose] made them there is nothing of the document to render;
    otherwise Textual goes on if it can display the state, and the
    application ends if it cannot. *)
Definition refresh (fw : Framework) (self : App) : App :=
  if exited self then self
  else match info_bar self, log_container self with
       | [], [] => self
       | _, _ => if can_display fw self then self else crashed self
       end.

(** A key event: its handler, then the screen. *)
Definition step (fw : Framework) (key : string) (self : App) : App :=
  refresh fw (press fw key self).



Section WithRuntime.
Variable rt : Runtime.

(** The text each [except] clause of [load_file] notifies. *)
Definition failure_message (e : exn) : string :=
  match e with
  | TimeoutExpired _ _ => "Colorhymn timed out"
  | JSONDecodeError _ => "JSON parse error: " ++ exn_str rt e
  | _ => "Error: " ++ exn_str rt e
  end.

(** The info bar text of [render_log]. *)
Definition info_text (meta : pyval) : result Rich.Text :=
  filename <- getitem meta "filename" ;;
  text <- Rich.append [] (PStr (" " ++ py_str rt filename ++ " "))
                      (PStr "bold") ;;
  line_count <- getitem meta "line_count" ;;
  text <- Rich.append text
            (PStr ("│ " ++ py_str rt line_count ++ " lines "))
            (PStr "dim") ;;
  text <- Rich.append text (PStr "│ temp: ") (PStr "dim") ;;
  temperature <- getitem meta "temperature" ;;
  temp_color <- dict_get temp_colors temperature "white" ;;
  text <- Rich.append text temperature (PStr temp_color) ;;
  text <- Rich.append text (PStr " │ mood: ") (PStr "dim") ;;
  mood <- getitem meta "mood" ;;
  mood_color <- dict_get temp_colors mood "white" ;;
  Rich.append text mood (PStr mood_color).

(** The row of [render_log] for a line that has tokens. *)
Definition log_line (i : nat) (line_tokens : pyval) : result Rich.Text :=
  text <- Rich.append [] (PStr (fmt_5d i ++ " ")) (PStr "dim") ;;
  tokens <- iter line_tokens ;;
  fold_items tokens text
    (fun text token =>
       '(_, value, color) <- unpack3 token ;;
       Rich.append text value color).

Definition render_log : eff App unit :=
  fun self =>
    if negb (truthy (data self)) then (self, Ok tt)
    else
      (meta <~ lift (getitem (data self) "metadata") ;;
       text <~ lift (info_text meta) ;;
       update (info_bar_update text) ;;;
       lines <~ lift (lines <- getitem (data self) "lines" ;; iter lines) ;;
       for_enum 1 lines
         (fun i line_tokens =>
            if truthy line_tokens
            then text <~ lift (log_line i line_tokens) ;;
                 update (mount text)
            else update (mount (Rich.styled (fmt_5d i ++ " ")
                                            (PStr "dim"))))) self.

(** The body of the [try] of [load_file]. *)
Definition load_file_try (ran : result CompletedProcess) : eff App unit :=
  result <~ lift ran ;;
  if negb (returncode result =? 0)%Z
  then update (notify ("Error: " ++ stderr result) "error")
  else match Str.find "{" (stdout result) with
       | None => update (notify "No JSON output from colorhymn" "error")
       | Some json_start =>
           loaded <~ lift (json_loads rt
                             (Str.drop json_start (stdout result))) ;;
           update (set_data loaded) ;;;
           render_log
       end.

Definition load_file (c : child) (self : App) : App * fate :=
  let (ran, left) :=
    Subprocess.run ["mix"; "colorize"; file_path self]
                   (install_root rt) 30 c in
  (match load_file_try ran self with
   | (self', Ok _) => self'
   | (self', Raise (TimeoutExpired _ _)) =>
       notify "Colorhymn timed out" "error" self'
   | (self', Raise (JSONDecodeError msg)) =>
       notify ("JSON parse error: " ++ exn_str rt (JSONDecodeError msg))
              "error" self'
   | (self', Raise e) =>
       notify ("Error: " ++ exn_str rt e) "error" self'
   end,
   left).

(** [on_mount]. *)
Definition on_mount (c : child) (self : App) : App :=
  fst (load_file c self).


(** [app.run()]: the application is mounted and rendered, then handles the
    keys one after the other. *)
Definition run (fw : Framework) (path : string) (height : Z) (c : child)
           (keys : list string) : App :=
  fold_left (fun self key => step fw key self) keys
            (refresh fw (on_mount c (new_app path height))).

End WithRuntime.

End ColorhymnViewer.

(* ================================================================== *)
(** ** The document of the classifier contract *)

Module Model.

(** A token [[kind, text, color]]. *)
Record Token : Type := {
  kind : pyval;
  text : string;
  color : string
}.

(** A document: the metadata fields and the lines, each a list of tokens.
    The file name and the line count are only ever formatted, so they are
    kept as they come. *)
Record Document : Type := {
  filename : pyval;
  line_count : pyval;
  temperature : string;
  mood : string;
  lines : list (list Token)
}.

Definition as_token (v : pyval) : option Token :=
  match v with
  | PList [k; PStr t; PStr c] => Some {| kind := k; text := t; color := c |}
  | _ => None
  end.

Fixpoint traverse {A} (f : pyval -> option A) (l : list pyval)
  : option (list A) :=
  match l with
  | [] => Some []
  | x :: rest =>
      match f x, traverse f rest with
      | Some a, Some r => Some (a :: r)
      | _, _ => None
      end
  end.

Definition as_line (v : pyval) : option (list Token) :=
  match v with
  | PList l => traverse as_token l
  | _ => None
  end.

(** The document a Python value holds, when it has the shape of the
    contract: a dict with [metadata] and [lines], string temperature and
    mood, lines that are lists of three-element lists [[kind, str, str]]. *)
Definition as_document (v : pyval) : option Document :=
  match getitem v "metadata", getitem v "lines" with
  | Ok meta, Ok (PList ls) =>
      match getitem meta "filename", getitem meta "line_count",
            getitem meta "temperature", getitem meta "mood",
            traverse as_line ls with
      | Ok f, Ok n, Ok (PStr t), Ok (PStr m), Some l =>
          Some {| filename := f; line_count := n; temperature := t;
                  mood := m; lines := l |}
      | _, _, _, _, _ => None
      end
  | _, _ => None
  end.

(** ['#'] followed by six hexadecimal digits. *)
Definition is_hex_color (c : string) : bool :=
  match c with
  | String "#" (String a (String b (String d (String e (String f
      (String g EmptyString)))))) =>
      forallb (fun x => match hex_digit x with Some _ => true | None => false end)
              [a; b; d; e; f; g]
  | _ => false
  end.

Definition hex_colors (d : Document) : bool :=
  forallb (forallb (fun t => is_hex_color (color t))) (lines d).

(** The value of the two hexadecimal digits of [c] at positions [k] and
    [k + 1]. *)
Definition hex_pair (c : string) (k : nat) : Z :=
  let digit (i : nat) : Z :=
    match String.get i c with
    | Some a => match hex_digit a with Some x => x | None => 0%Z end
    | None => 0%Z
    end in
  (16 * digit k + digit (S k))%Z.

Definition red (c : string) : Z := hex_pair c 1.
Definition green (c : string) : Z := hex_pair c 3.
Definition blue (c : string) : Z := hex_pair c 5.

(** [f i x] for each [x] of the list, [i] counting from [i0]. *)
Fixpoint numbered {A B} (f : nat -> A -> B) (i0 : nat) (l : list A)
  : list B :=
  match l with
  | [] => []
  | x :: rest => f i0 x :: numbered f (S i0) rest
  end.

(** The row the styled renderers give line [i]: the dim number, then one
    run per token, in its color. *)
Definition styled_row (i : nat) (tokens : list Token) : Rich.Text :=
  (fmt_5d i ++ " ", PStr "dim")
    :: map (fun t => (text t, PStr (color t))) tokens.

(** The escape sequence that selects a 24-bit foreground color. *)
Definition sgr_color (c : string) : string :=
  Str.ESC ++ "[38;2;" ++ Str.decimal (red c) ++ ";"
    ++ Str.decimal (green c) ++ ";" ++ Str.decimal (blue c) ++ "m".

Definition ansi_run (t : Token) : string :=
  sgr_color (color t) ++ text t ++ Str.ESC ++ "[0m".

(** The string the raw renderer gives line [i]. *)
Definition ansi_row (i : nat) (tokens : list Token) : string :=
  Str.ESC ++ "[2m" ++ fmt_5d i ++ Str.ESC ++ "[0m" ++ " "
    ++ Str.join (map ansi_run tokens).

(** The text of a line: its token texts, in order. *)
Definition line_text (tokens : list Token) : string :=
  Str.join (map text tokens).

(** *** What a terminal shows of a string with SGR escapes *)

(** The parameters of an SGR sequence: digits and semicolons. *)
Fixpoint sgr_params (p : string) : bool :=
  match p with
  | EmptyString => true
  | String a rest =>
      let n := nat_of_ascii a in
      (((48 <=? n)%nat && (n <=? 57)%nat) || (n =? 59)%nat)
        && sgr_params rest
  end.

(** [shows s v]: [v] is [s] with SGR sequences [ESC [ params m] taken
    out. *)
Inductive shows : string -> string -> Prop :=
| shows_end : shows "" ""
| shows_char (a : ascii) (s v : string) :
    shows s v -> shows (String a s) (String a v)
| shows_sgr (p s v : string) :
    sgr_params p = true ->
    shows s v -> shows (Str.ESC ++ "[" ++ p ++ "m" ++ s) v.

(** The parameter text at the head of [s], up to the final [m], and what
    follows it. *)
Fixpoint sgr_tail (s : string) : option string :=
  match s with
  | EmptyString => None
  | String a rest =>
      if Ascii.eqb a "m" then Some rest
      else if sgr_params (String a "") then sgr_tail rest
      else None
  end.

(** Escape stripping as a function: every [ESC [ params m] is dropped,
    anything else is kept. *)
Fixpoint strip_sgr (fuel : nat) (s : string) : string :=
  match fuel with
  | O => s
  | S fuel' =>
      match s with
      | EmptyString => EmptyString
      | String a rest =>
          if Ascii.eqb a (ascii_of_nat 27)
          then match rest with
               | String "[" rest' =>
                   match sgr_tail rest' with
                   | Some after => strip_sgr fuel' after
                   | None => String a (strip_sgr fuel' rest)
                   end
               | _ => String a (strip_sgr fuel' rest)
               end
          else String a (strip_sgr fuel' rest)
      end
  end.

Definition visible (s : string) : string := strip_sgr (String.length s) s.

(** *** The semantic palette *)

Definition semantic_names : list string :=
  [ "cool"; "neutral"; "elevated"; "uneasy"; "troubled"; "warm";
    "critical" ].

(** The color of a temperature or mood name: its entry in the palette,
    white for a name the palette does not have. *)
Definition resolve (name : string) : string :=
  match List.find (fun kv => String.eqb (fst kv) name)
                  ColorhymnViewer.temp_colors with
  | Some kv => snd kv
  | None => "white"
  end.

(** *** The headers, as the three renderers write them *)

Section Headers.
Variable rt : Runtime.

(** The header of [render_rich]; the mood run carries the style found
    for the temperature. *)
Definition rich_header_of (d : Document) : Rich.Text :=
  [ ("━━━ " ++ py_str rt (filename d) ++ " ", PStr "bold");
    ("│ " ++ py_str rt (line_count d) ++ " lines ", PStr "dim");
    ("│ temp: ", PNone);
    (temperature d, PStr (resolve (temperature d)));
    (" │ mood: ", PNone);
    (mood d, PStr (resolve (temperature d)));
    (" ━━━", PNone) ].

(** The info bar of [render_log]. *)
Definition info_bar_of (d : Document) : Rich.Text :=
  [ (" " ++ py_str rt (filename d) ++ " ", PStr "bold");
    ("│ " ++ py_str rt (line_count d) ++ " lines ", PStr "dim");
    ("│ temp: ", PStr "dim");
    (temperature d, PStr (resolve (temperature d)));
    (" │ mood: ", PStr "dim");
    (mood d, PStr (resolve (mood d))) ].

(** The banner of [render_ansi], which has no color. *)
Definition banner_of (d : Document) : string :=
  "━━━ " ++ py_str rt (filename d) ++ " │ " ++ py_str rt (line_count d)
    ++ " lines │ temp: " ++ temperature d ++ " │ mood: " ++ mood d
    ++ " ━━━" ++ Str.LF.
End Headers.

(** [needle in hay]. *)
Fixpoint contains (needle hay : string) : bool :=
  String.prefix needle hay
  || match hay with
     | EmptyString => false
     | String _ rest => contains needle rest
     end.

(** Every character, to settle a property of characters by running it. *)
Definition all_ascii : list ascii := map ascii_of_nat (seq 0 256).

(** [int(s, 16)] of the two hexadecimal digits [a], [b] is their
    positional value. *)
Definition pair_read (a b : ascii) : bool :=
  match hex_digit a, hex_digit b with
  | Some x, Some y =>
      match parse_int16 (String a (String b "")) with
      | Some z => Z.eqb z (16 * x + y)
      | None => false
      end
  | _, _ => true
  end.

End Model.

(* ================================================================== *)
(** ** A runtime to run the scripts on concrete classifier output *)

(** A decoder for the part of JSON the classifier contract uses: objects,
    arrays, strings without escapes, integers, [true], [false], [null],
    blanks between them.  It stands for [json.loads] where a statement about
    every runtime is applied to a concrete one; text outside this part of
    JSON is refused, which [json.loads] need not do. *)
Module Json.

Definition is_blank (a : ascii) : bool :=
  let n := nat_of_ascii a in
  (n =? 32)%nat || (n =? 9)%nat || (n =? 10)%nat || (n =? 13)%nat.

Fixpoint skip_blanks (s : string) : string :=
  match s with
  | String a rest => if is_blank a then skip_blanks rest else s
  | EmptyString => s
  end.

(** The characters up to the closing quote. *)
Fixpoint string_body (s : string) : option (string * string) :=
  match s with
  | EmptyString => None
  | String a rest =>
      if Ascii.eqb a "034" then Some (EmptyString, rest)
      else if Ascii.eqb a "\" || (nat_of_ascii a <? 32)%nat then None
      else match string_body rest with
           | Some (body, after) => Some (String a body, after)
           | None => None
           end
  end.

Definition decimal_digit (a : ascii) : option Z :=
  let n := Z.of_nat (nat_of_ascii a) in
  if ((48 <=? n) && (n <=? 57))%Z then Some (n - 48)%Z else None.

Fixpoint digits (acc : Z) (s : string) : Z * string :=
  match s with
  | String a rest =>
      match decimal_digit a with
      | Some d => digits (10 * acc + d)%Z rest
      | None => (acc, s)
      end
  | EmptyString => (acc, s)
  end.

Definition number (s : string) : option (Z * string) :=
  let '(sign, s') :=
    match s with
    | String "-" rest => ((-1)%Z, rest)
    | _ => (1%Z, s)
    end in
  match s' with
  | String a _ =>
      match decimal_digit a with
      | Some _ =>
          let '(n, after) := digits 0 s' in
          match after with
          | String "." _ | String "e" _ | String "E" _ => None
          | _ => Some ((sign * n)%Z, after)
          end
      | None => None
      end
  | EmptyString => None
  end.

(** [d[k] = v]: a key met again keeps its place and takes the new value. *)
Fixpoint dict_set (d : list (string * pyval)) (k : string) (v : pyval)
  : list (string * pyval) :=
  match d with
  | [] => [(k, v)]
  | (k', v') :: rest =>
      if String.eqb k' k then (k, v) :: rest
      else (k', v') :: dict_set rest k v
  end.

Fixpoint value (fuel : nat) (s : string) : option (pyval * string) :=
  match fuel with
  | O => None
  | S fuel' =>
      match skip_blanks s with
      | String "{" rest =>
          match skip_blanks rest with
          | String "}" after => Some (PDict [], after)
          | rest' => members fuel' [] rest'
          end
      | String "[" rest =>
          match skip_blanks rest with
          | String "]" after => Some (PList [], after)
          | rest' => elements fuel' [] rest'
          end
      | String "034" rest =>
          match string_body rest with
          | Some (body, after) => Some (PStr body, after)
          | None => None
          end
      | String "t" (String "r" (String "u" (String "e" after))) =>
          Some (PBool true, after)
      | String "f" (String "a" (String "l" (String "s" (String "e" after)))) =>
          Some (PBool false, after)
      | String "n" (String "u" (String "l" (String "l" after))) =>
          Some (PNone, after)
      | s' =>
          match number s' with
          | Some (n, after) => Some (PInt n, after)
          | None => None
          end
      end
  end

with elements (fuel : nat) (acc : list pyval) (s : string)
  : option (pyval * string) :=
  match fuel with
  | O => None
  | S fuel' =>
      match value fuel' s with
      | Some (v, after) =>
          match skip_blanks after with
          | String "," rest => elements fuel' (acc ++ [v])%list rest
          | String "]" rest => Some (PList (acc ++ [v])%list, rest)
          | _ => None
          end
      | None => None
      end
  end

with members (fuel : nat) (acc : list (string * pyval)) (s : string)
  : option (pyval * string) :=
  match fuel with
  | O => None
  | S fuel' =>
      match skip_blanks s with
      | String "034" rest =>
          match string_body rest with
          | Some (key, after) =>
              match skip_blanks after with
              | String ":" rest' =>
                  match value fuel' rest' with
                  | Some (v, after') =>
                      match skip_blanks after' with
                      | String "," rest'' =>
                          members fuel' (dict_set acc key v) rest''
                      | String "}" rest'' =>
                          Some (PDict (dict_set acc key v), rest'')
                      | _ => None
                      end
                  | None => None
                  end
              | _ => None
              end
          | None => None
          end
      | _ => None
      end
  end.

Definition loads (s : string) : result pyval :=
  match value (S (String.length s)) s with
  | Some (v, after) =>
      match skip_blanks after with
      | EmptyString => Ok v
      | _ => Raise (JSONDecodeError "Extra data")
      end
  | None => Raise (JSONDecodeError "Expecting value")
  end.

(** The runtime of the examples: the decoder above, a [repr] that puts the
    string between single quotes, no wording for interpreter errors. *)
Definition runtime : Runtime :=
  {| json_loads := loads;
     str_repr := fun s => "'" ++ s ++ "'";
     error_text := fun _ => "";
     install_root := "/opt/colorhymn" |}.

End Json.

(* ================================================================== *)
(** ** Sample classifier output *)

Module Examples.

(** Metadata with a temperature and a mood of different colors. *)
Definition critical_cool : pyval :=
  PDict [ ("filename", PStr "app.log"); ("line_count", PInt 3);
          ("temperature", PStr "critical"); ("mood", PStr "cool") ].

(** The scenario of the spec: three lines of one token, in red, green and
    blue. *)
Definition three_lines : pyval :=
  PDict [ ("metadata", critical_cool);
          ("lines",
           PList [ PList [ PList [PStr "word"; PStr "alpha"; PStr "#FF0000"] ];
                   PList [ PList [PStr "word"; PStr "beta"; PStr "#00FF00"] ];
                   PList [ PList [PStr "word"; PStr "gamma"; PStr "#0000FF"] ] ]) ].

Definition three_lines_doc : Model.Document :=
  {| Model.filename := PStr "app.log"; Model.line_count := PInt 3;
     Model.temperature := "critical"; Model.mood := "cool";
     Model.lines :=
       [ [ {| Model.kind := PStr "word"; Model.text := "alpha";
              Model.color := "#FF0000" |} ];
         [ {| Model.kind := PStr "word"; Model.text := "beta";
              Model.color := "#00FF00" |} ];
         [ {| Model.kind := PStr "word"; Model.text := "gamma";
              Model.color := "#0000FF" |} ] ] |}.

(** A document that announces ten lines and has two, the second blank. *)
Definition ten_claimed : pyval :=
  PDict [ ("metadata",
           PDict [ ("filename", PStr "app.log"); ("line_count", PInt 10);
                   ("temperature", PStr "warm"); ("mood", PStr "uneasy") ]);
          ("lines",
           PList [ PList [ PList [PStr "verb"; PStr "GET"; PStr "#1e90ff"];
                           PList [PStr "path"; PStr " /"; PStr "#A0A0A0"] ];
                   PList [] ]) ].

Definition ten_claimed_doc : Model.Document :=
  {| Model.filename := PStr "app.log"; Model.line_count := PInt 10;
     Model.temperature := "warm"; Model.mood := "uneasy";
     Model.lines :=
       [ [ {| Model.kind := PStr "verb"; Model.text := "GET";
              Model.color := "#1e90ff" |};
           {| Model.kind := PStr "path"; Model.text := " /";
              Model.color := "#A0A0A0" |} ];
         [] ] |}.

(** The text the classifier prints for [ten_claimed], after a compiler
    warning. *)
Definition ten_claimed_output : string :=
  let q (s : string) : string := Str.DQ ++ s ++ Str.DQ in
  "warning: unused variable" ++ Str.LF
    ++ "{" ++ q "metadata" ++ ": {" ++ q "filename" ++ ": " ++ q "app.log"
    ++ ", " ++ q "line_count" ++ ": 10, "
    ++ q "temperature" ++ ": " ++ q "warm" ++ ", "
    ++ q "mood" ++ ": " ++ q "uneasy" ++ "}, "
    ++ q "lines" ++ ": [[[" ++ q "verb" ++ ", " ++ q "GET" ++ ", "
    ++ q "#1e90ff" ++ "], [" ++ q "path" ++ ", " ++ q " /" ++ ", "
    ++ q "#A0A0A0" ++ "]], []]}" ++ Str.LF.

(** A token with two elements instead of three. *)
Definition short_token : pyval :=
  PDict [ ("metadata", critical_cool);
          ("lines", PList [ PList [ PList [PStr "word"; PStr "alpha"] ] ]) ].

(** The text the classifier prints for [short_token]. *)
Definition short_token_output : string :=
  let q (s : string) : string := Str.DQ ++ s ++ Str.DQ in
  "{" ++ q "metadata" ++ ": {" ++ q "filename" ++ ": " ++ q "app.log"
    ++ ", " ++ q "line_count" ++ ": 3, "
    ++ q "temperature" ++ ": " ++ q "critical" ++ ", "
    ++ q "mood" ++ ": " ++ q "cool" ++ "}, "
    ++ q "lines" ++ ": [[[" ++ q "word" ++ ", " ++ q "alpha" ++ "]]]}".

(** A token whose color is a color name. *)
Definition named_color : pyval :=
  PDict [ ("metadata", critical_cool);
          ("lines",
           PList [ PList [ PList [PStr "word"; PStr "alpha"; PStr "green"] ] ]) ].

Definition exits_with (code : Z) (out err : string) : child :=
  Exits (1 # 2) {| returncode := code; stdout := out; stderr := err |}.

(** The viewer of the spec's example: a hundred rows, twenty of them
    visible. *)
Definition hundred_rows : ColorhymnViewer.App :=
  ColorhymnViewer.mount_all (repeat [] 100)
                            (ColorhymnViewer.new_app "app.log" 20).

(** The six navigation actions. *)
Definition navigation : list (ColorhymnViewer.App -> ColorhymnViewer.App) :=
  [ ColorhymnViewer.action_scroll_top; ColorhymnViewer.action_scroll_bottom;
    ColorhymnViewer.action_scroll_down; ColorhymnViewer.action_scroll_up;
    ColorhymnViewer.action_page_down; ColorhymnViewer.action_page_up ].

End Examples.

Import Model.

(* ================================================================== *)
(** ** Decoded values that are only partly of the contract *)

Module Shape.

(** The metadata a Python value holds, as a document without lines. *)
Definition as_metadata (meta : pyval) : option Document :=
  match getitem meta "filename", getitem meta "line_count",
        getitem meta "temperature", getitem meta "mood" with
  | Ok f, Ok n, Ok (PStr t), Ok (PStr m) =>
      Some {| filename := f; line_count := n; temperature := t; mood := m;
              lines := [] |}
  | _, _, _, _ => None
  end.

(** The metadata of a decoded value and the entries of its [lines], as
    they come: nothing is asked of the entries. *)
Definition as_envelope (v : pyval) : option (Document * list pyval) :=
  match getitem v "metadata", getitem v "lines" with
  | Ok meta, Ok (PList entries) =>
      match as_metadata meta with
      | Some d => Some (d, entries)
      | None => None
      end
  | _, _ => None
  end.

(** The number the metadata announce is the number of entries of
    [lines]. *)
Definition line_count_agrees (v : pyval) : bool :=
  match getitem v "metadata", getitem v "lines" with
  | Ok meta, Ok (PList entries) =>
      match getitem meta "line_count" with
      | Ok (PInt n) => Z.eqb n (Z.of_nat (List.length entries))
      | _ => false
      end
  | _, _ => false
  end.

(** Modelled from the spec: the fetch validates [line_count] against the
    entries of [lines] and a mismatch is not fatal.  A validation that does
    not stop the scripts can only show in what they tell the user: for a
    value fetched whose [line_count] is not the number of its entries, some
    run of the static script prints on standard error, or the viewer
    notifies. *)
Definition spec_validates_line_count (rt : Runtime) : Prop :=
  forall path c v,
    fst (ColorhymnRich.colorize_file rt path c) = Ok v ->
    line_count_agrees v = false ->
    (exists script rich,
        ColorhymnRich.errors
          (ColorhymnRich.main rt [script; path] rich c) <> [])
    \/ (exists self,
           ColorhymnViewer.notifications
             (fst (ColorhymnViewer.load_file rt c self))
           <> ColorhymnViewer.notifications self).

(** A statement whose final state is related to its initial state by [R],
    whether it ends normally or raises. *)
Definition within {St A} (R : St -> St -> Prop) (m : eff St A) : Prop :=
  forall s, R s (fst (m s)).

(** [out'] is [out] with something added at its end. *)
Definition extends {W} (out out' : list W) : Prop :=
  exists added, out' = (out ++ added)%list.

(** What the viewer keeps of its state while it draws or handles a key
    other than the search key: everything but the scroll position. *)
Definition same_content (self self' : ColorhymnViewer.App) : Prop :=
  ColorhymnViewer.data self' = ColorhymnViewer.data self
  /\ ColorhymnViewer.info_bar self' = ColorhymnViewer.info_bar self
  /\ ColorhymnViewer.log_container self'
     = ColorhymnViewer.log_container self
  /\ ColorhymnViewer.file_path self' = ColorhymnViewer.file_path self.

(** What drawing the log may do to the viewer: add rows after the rows
    there are and replace the info bar, nothing else. *)
Definition drawn_over (self self' : ColorhymnViewer.App) : Prop :=
  extends (ColorhymnViewer.log_container self)
          (ColorhymnViewer.log_container self')
  /\ ColorhymnViewer.data self' = ColorhymnViewer.data self
  /\ ColorhymnViewer.notifications self'
     = ColorhymnViewer.notifications self
  /\ ColorhymnViewer.viewport self' = ColorhymnViewer.viewport self
  /\ ColorhymnViewer.exited self' = ColorhymnViewer.exited self
  /\ ColorhymnViewer.file_path self' = ColorhymnViewer.file_path self.

(** The error of a styled renderer that is handed [x] where it looks a
    color up and appends a text. *)
Definition lookup_refusal (x : pyval) : builtin_error :=
  match x with
  | PList _ | PDict _ => Unhashable x
  | _ => NotText x
  end.

(** The notification of the search key. *)
Definition search_warning : ColorhymnViewer.Notification :=
  {| ColorhymnViewer.message := "Search not yet implemented";
     ColorhymnViewer.severity := "warning" |}.


(** How many times the search key is pressed. *)
Fixpoint searches (keys : list string) : nat :=
  match keys with
  | [] => O
  | key :: rest =>
      if String.eqb key "/" then S (searches rest) else searches rest
  end.

End Shape.

Import Shape.

(* ================================================================== *)
(** ** More classifier output *)

Module Cases.

Definition token (kind text color : string) : pyval :=
  PList [PStr kind; PStr text; PStr color].

Definition document (meta : pyval) (entries : list pyval) : pyval :=
  PDict [ ("metadata", meta); ("lines", PList entries) ].

(** Three entries, the second with a token of two elements. *)
Definition second_line_short : pyval :=
  document Examples.critical_cool
    [ PList [ token "word" "alpha" "#FF0000" ];
      PList [ PList [PStr "word"; PStr "beta"] ];
      PList [ token "word" "gamma" "#0000FF" ] ].

(** Three entries, the second [null]. *)
Definition second_line_null : pyval :=
  document Examples.critical_cool
    [ PList [ token "word" "alpha" "#FF0000" ];
      PNone;
      PList [ token "word" "gamma" "#0000FF" ] ].

(** Metadata whose temperature is a number. *)
Definition numeric_temperature : pyval :=
  PDict [ ("filename", PStr "app.log"); ("line_count", PInt 3);
          ("temperature", PInt 5); ("mood", PStr "cool") ].

(** Metadata whose mood is a list. *)
Definition listed_mood : pyval :=
  PDict [ ("filename", PStr "app.log"); ("line_count", PInt 3);
          ("temperature", PStr "warm"); ("mood", PList [PStr "cool"]) ].

(** A decoded value without [lines]. *)
Definition no_lines : pyval :=
  PDict [ ("metadata", Examples.critical_cool) ].

(** A decoded value without [metadata]. *)
Definition no_metadata : pyval :=
  PDict [ ("lines", PList []) ].

Definition alpha : Token :=
  {| kind := PStr "word"; text := "alpha"; color := "#FF0000" |}.

Definition gamma : Token :=
  {| kind := PStr "word"; text := "gamma"; color := "#0000FF" |}.

(** The metadata of [Examples.critical_cool]. *)
Definition critical_cool_doc : Document :=
  {| filename := PStr "app.log"; line_count := PInt 3;
     temperature := "critical"; mood := "cool"; lines := [] |}.

(** A viewer that has just been composed. *)
Definition fresh : ColorhymnViewer.App :=
  ColorhymnViewer.new_app "app.log" 20.

(** A Textual that quits on [ctrl+q] and can render every text. *)
Definition textual : ColorhymnViewer.Framework :=
  {| ColorhymnViewer.inherited_key :=
       fun key self =>
         if String.eqb key "ctrl+q" then ColorhymnViewer.action_quit self
         else self;
     ColorhymnViewer.can_display := fun _ => true |}.

End Cases.

(* ================================================================== *)
(** * Properties *)

(** ** The semantic palette *)

Lemma dict_get_styles (s : string) :
  dict_get ColorhymnRich.temp_styles (PStr s) "white" = Ok (resolve s).
Proof.
  unfold dict_get, resolve.
  change ColorhymnRich.temp_styles with ColorhymnViewer.temp_colors.
  destruct (find _ _); reflexivity.
Qed.

Lemma dict_get_colors (s : string) :
  dict_get ColorhymnViewer.temp_colors (PStr s) "white" = Ok (resolve s).
Proof.
  unfold dict_get, resolve.
  destruct (find _ _); reflexivity.
Qed.

Lemma resolve_unknown (s : string) :
  ~ In s semantic_names -> resolve s = "white".
Proof.
  intros Hout. unfold resolve, ColorhymnViewer.temp_colors. cbn [find fst snd].
  repeat match goal with
         | |- context [String.eqb ?k s] =>
             destruct (String.eqb_spec k s) as [Heq | _];
             [ exfalso; apply Hout; rewrite <- Heq; cbn; tauto | ]
         end.
  reflexivity.
Qed.

(** C9. The lookup that colors temperature and mood never fails on a
    string: in both scripts it gives each of the seven names its palette
    color and every other string the default, white. *)
Theorem semantic_color_total :
  (forall s : string,
      dict_get ColorhymnRich.temp_styles (PStr s) "white" = Ok (resolve s)
      /\ dict_get ColorhymnViewer.temp_colors (PStr s) "white"
         = Ok (resolve s))
  /\ map resolve semantic_names
     = [ "cyan"; "white"; "yellow"; "yellow"; "orange1"; "orange1"; "red" ]
  /\ (forall s : string, ~ In s semantic_names -> resolve s = "white").
Proof.
  split; [ | split ].
  - intros s. split; [ apply dict_get_styles | apply dict_get_colors ].
  - reflexivity.
  - apply resolve_unknown.
Qed.

(** ** The header of the two styled renderers *)

Section Headers.
Variable rt : Runtime.
Variables (meta f n : pyval) (t m : string).
Hypothesis Hf : getitem meta "filename" = Ok f.
Hypothesis Hn : getitem meta "line_count" = Ok n.
Hypothesis Ht : getitem meta "temperature" = Ok (PStr t).
Hypothesis Hm : getitem meta "mood" = Ok (PStr m).

(** [render_rich] gives the mood the style it looked up for the
    temperature. *)
Lemma rich_header_runs :
  ColorhymnRich.rich_header rt meta
  = Ok [ ("━━━ " ++ py_str rt f ++ " ", PStr "bold");
         ("│ " ++ py_str rt n ++ " lines ", PStr "dim");
         ("│ temp: ", PNone);
         (t, PStr (resolve t));
         (" │ mood: ", PNone);
         (m, PStr (resolve t));
         (" ━━━", PNone) ].
Proof.
  unfold ColorhymnRich.rich_header.
  rewrite Hf, Hn, Ht, Hm. cbn [bind Rich.append app].
  rewrite dict_get_styles. reflexivity.
Qed.

(** [render_log] looks the mood up by itself. *)
Lemma info_text_runs :
  ColorhymnViewer.info_text rt meta
  = Ok [ (" " ++ py_str rt f ++ " ", PStr "bold");
         ("│ " ++ py_str rt n ++ " lines ", PStr "dim");
         ("│ temp: ", PStr "dim");
         (t, PStr (resolve t));
         (" │ mood: ", PStr "dim");
         (m, PStr (resolve m)) ].
Proof.
  unfold ColorhymnViewer.info_text.
  rewrite Hf, Hn, Ht, Hm. cbn [bind Rich.append app].
  rewrite !dict_get_colors. reflexivity.
Qed.
End Headers.

(** C1. On metadata with temperature [critical] and mood [cool],
    [render_rich] draws the mood in red, the color of the temperature, while
    the palette gives [cool] cyan; [render_log] draws it in cyan. *)
Theorem rich_mood_drawn_in_temperature_color (rt : Runtime) :
  ColorhymnRich.rich_header rt Examples.critical_cool
  = Ok [ ("━━━ app.log ", PStr "bold"); ("│ 3 lines ", PStr "dim");
         ("│ temp: ", PNone); ("critical", PStr "red");
         (" │ mood: ", PNone); ("cool", PStr "red"); (" ━━━", PNone) ]
  /\ dict_get ColorhymnRich.temp_styles (PStr "cool") "white" = Ok "cyan"
  /\ ColorhymnViewer.info_text rt Examples.critical_cool
     = Ok [ (" app.log ", PStr "bold"); ("│ 3 lines ", PStr "dim");
            ("│ temp: ", PStr "dim"); ("critical", PStr "red");
            (" │ mood: ", PStr "dim"); ("cool", PStr "cyan") ].
Proof.
  repeat split.
Qed.

(** ** Reading a color *)

Lemma in_all_ascii (a : ascii) : In a all_ascii.
Proof.
  unfold all_ascii. rewrite <- (ascii_nat_embedding a).
  apply in_map, in_seq. pose proof (nat_ascii_bounded a). lia.
Qed.

Lemma pair_read_all :
  forallb (fun a => forallb (pair_read a) all_ascii) all_ascii = true.
Proof. vm_compute. reflexivity. Qed.

Lemma parse_int16_pair (a b : ascii) (x y : Z) :
  hex_digit a = Some x -> hex_digit b = Some y ->
  parse_int16 (String a (String b "")) = Some (16 * x + y)%Z.
Proof.
  intros Ha Hb.
  pose proof pair_read_all as Hall.
  rewrite forallb_forall in Hall.
  specialize (Hall a (in_all_ascii a)).
  rewrite forallb_forall in Hall.
  specialize (Hall b (in_all_ascii b)).
  unfold pair_read in Hall. rewrite Ha, Hb in Hall.
  destruct (parse_int16 _) as [z | ]; [ | discriminate ].
  apply Z.eqb_eq in Hall. now subst.
Qed.

Lemma hex_digit_range (a : ascii) (x : Z) :
  hex_digit a = Some x -> (0 <= x < 16)%Z.
Proof.
  unfold hex_digit.
  repeat match goal with
         | |- context [if ?c then _ else _] => destruct c eqn:?
         end; intros [= <-]; lia.
Qed.

(** A well-formed color, taken apart. *)
Lemma is_hex_color_inv (c : string) :
  is_hex_color c = true ->
  exists a b d e f g xa xb xd xe xf xg,
    c = String "#" (String a (String b (String d (String e (String f
          (String g EmptyString))))))
    /\ hex_digit a = Some xa /\ hex_digit b = Some xb
    /\ hex_digit d = Some xd /\ hex_digit e = Some xe
    /\ hex_digit f = Some xf /\ hex_digit g = Some xg.
Proof.
  unfold is_hex_color.
  destruct c as [ | h c ]; [ discriminate | ].
  destruct h as [[] [] [] [] [] [] [] []]; try discriminate.
  destruct c as [ | a [ | b [ | d [ | e [ | f [ | g [ | ? ? ]]]]]]];
    try discriminate.
  cbn [forallb]. intros H.
  destruct (hex_digit a) as [xa | ] eqn:Ha; [ | discriminate ].
  destruct (hex_digit b) as [xb | ] eqn:Hb; [ | discriminate ].
  destruct (hex_digit d) as [xd | ] eqn:Hd; [ | discriminate ].
  destruct (hex_digit e) as [xe | ] eqn:He; [ | discriminate ].
  destruct (hex_digit f) as [xf | ] eqn:Hf; [ | discriminate ].
  destruct (hex_digit g) as [xg | ] eqn:Hg; [ | discriminate ].
  exists a, b, d, e, f, g, xa, xb, xd, xe, xf, xg.
  repeat split; assumption.
Qed.

(** The three slices of a well-formed color read as its three channels. *)
Lemma read_channels (c : string) :
  is_hex_color c = true ->
  (s <- slice (PStr c) 1 3 ;; int16 s) = Ok (red c)
  /\ (s <- slice (PStr c) 3 5 ;; int16 s) = Ok (green c)
  /\ (s <- slice (PStr c) 5 7 ;; int16 s) = Ok (blue c).
Proof.
  intros H. apply is_hex_color_inv in H.
  destruct H as (a & b & d & e & f & g & xa & xb & xd & xe & xf & xg
                 & -> & Ha & Hb & Hd & He & Hf & Hg).
  unfold red, green, blue, hex_pair.
  cbn [slice Str.slice Str.take Str.drop Nat.sub bind int16 String.get].
  rewrite (parse_int16_pair a b xa xb Ha Hb).
  rewrite (parse_int16_pair d e xd xe Hd He).
  rewrite (parse_int16_pair f g xf xg Hf Hg).
  rewrite Ha, Hb, Hd, He, Hf, Hg. repeat split.
Qed.

Lemma channel_range (c : string) :
  is_hex_color c = true ->
  (0 <= red c < 256 /\ 0 <= green c < 256 /\ 0 <= blue c < 256)%Z.
Proof.
  intros H. apply is_hex_color_inv in H.
  destruct H as (a & b & d & e & f & g & xa & xb & xd & xe & xf & xg
                 & -> & Ha & Hb & Hd & He & Hf & Hg).
  unfold red, green, blue, hex_pair. cbn [String.get].
  rewrite Ha, Hb, Hd, He, Hf, Hg.
  apply hex_digit_range in Ha, Hb, Hd, He, Hf, Hg. lia.
Qed.

(** ** Documents of the contract *)

Lemma as_token_inv (x : pyval) (tok : Token) :
  as_token x = Some tok ->
  x = PList [kind tok; PStr (text tok); PStr (color tok)].
Proof.
  unfold as_token.
  destruct x as [ | | | | | [ | k [ | [ | | | | t | | ] [ | [ | | | | c | | ] [ | ? ? ]]]] | ];
    try discriminate.
  now intros [= <-].
Qed.

Lemma as_line_inv (x : pyval) (toks : list Token) :
  as_line x = Some toks ->
  exists l, x = PList l /\ traverse as_token l = Some toks.
Proof.
  destruct x; try discriminate. intros H. now exists l.
Qed.

Lemma traverse_cons {A} (f : pyval -> option A) x l (L : list A) :
  traverse f (x :: l) = Some L ->
  exists a L', L = a :: L' /\ f x = Some a /\ traverse f l = Some L'.
Proof.
  cbn. destruct (f x) as [a | ]; [ | discriminate ].
  destruct (traverse f l) as [L' | ]; [ | discriminate ].
  intros [= <-]. now exists a, L'.
Qed.

Lemma traverse_nil {A} (f : pyval -> option A) (L : list A) :
  traverse f [] = Some L -> L = [].
Proof. now intros [= <-]. Qed.

Lemma as_document_inv (v : pyval) (d : Document) :
  as_document v = Some d ->
  exists meta ls,
    getitem v "metadata" = Ok meta
    /\ getitem v "lines" = Ok (PList ls)
    /\ getitem meta "filename" = Ok (filename d)
    /\ getitem meta "line_count" = Ok (line_count d)
    /\ getitem meta "temperature" = Ok (PStr (temperature d))
    /\ getitem meta "mood" = Ok (PStr (mood d))
    /\ traverse as_line ls = Some (lines d).
Proof.
  unfold as_document.
  destruct (getitem v "metadata") as [meta | ] eqn:Hmeta; [ | discriminate ].
  destruct (getitem v "lines") as [[ | | | | | ls | ] | ] eqn:Hlines;
    try discriminate.
  destruct (getitem meta "filename") as [f | ] eqn:Hf; [ | discriminate ].
  destruct (getitem meta "line_count") as [n | ] eqn:Hn; [ | discriminate ].
  destruct (getitem meta "temperature") as [[ | | | | t | | ] | ] eqn:Ht;
    try discriminate.
  destruct (getitem meta "mood") as [[ | | | | m | | ] | ] eqn:Hm;
    try discriminate.
  destruct (traverse as_line ls) as [L | ] eqn:HL; [ | discriminate ].
  intros [= <-]. exists meta, ls. cbn. repeat split; assumption.
Qed.

Lemma getitem_truthy (v x : pyval) (k : string) :
  getitem v k = Ok x -> truthy v = true.
Proof.
  destruct v as [ | | | | | | [ | ? ? ]]; cbn; try discriminate; reflexivity.
Qed.

Lemma numbered_length {A B} (f : nat -> A -> B) (l : list A) :
  forall i, List.length (numbered f i l) = List.length l.
Proof.
  induction l as [ | x l IH ]; intros i; cbn; [ | rewrite IH ]; reflexivity.
Qed.

Lemma numbered_nth_error {A B} (f : nat -> A -> B) (l : list A) :
  forall i k x,
    nth_error l k = Some x ->
    nth_error (numbered f i l) k = Some (f (i + k)%nat x).
Proof.
  induction l as [ | y l IH ]; intros i k x.
  - destruct k; discriminate.
  - destruct k as [ | k ]; cbn.
    + intros [= ->]. now rewrite Nat.add_0_r.
    + intros H. rewrite (IH (S i) k x H). f_equal. f_equal. lia.
Qed.

(** ** One line, drawn *)

Lemma bind_ok {A B} (a : A) (k : A -> result B) : bind (Ok a) k = k a.
Proof. reflexivity. Qed.

Lemma append_assoc (a b c : string) : (a ++ b) ++ c = a ++ (b ++ c).
Proof. induction a as [ | x a IH ]; cbn; [ | rewrite IH ]; reflexivity. Qed.

Section Lines.
Variable rt : Runtime.

Lemma fold_styled_runs (l : list pyval) :
  forall (toks : list Token) (acc : Rich.Text),
    traverse as_token l = Some toks ->
    fold_items l acc
      (fun text token =>
         '(_, value, color) <- unpack3 token ;;
         Rich.append text value color)
    = Ok (acc ++ map (fun t => (text t, PStr (color t))) toks)%list.
Proof.
  induction l as [ | x l IH ]; intros toks acc H.
  - apply traverse_nil in H. subst. cbn. now rewrite app_nil_r.
  - apply traverse_cons in H. destruct H as (tok & toks' & -> & Hx & Hl).
    apply as_token_inv in Hx. subst x.
    cbn [fold_items unpack3 iter bind Rich.append].
    rewrite (IH toks' _ Hl). cbn [map]. now rewrite <- app_assoc.
Qed.

Lemma rich_line_row (i : nat) (x : pyval) (toks : list Token) :
  as_line x = Some toks ->
  ColorhymnRich.rich_line i x = Ok (styled_row i toks).
Proof.
  intros H. apply as_line_inv in H. destruct H as (l & -> & Hl).
  unfold ColorhymnRich.rich_line. cbn [Rich.append bind iter app].
  now rewrite (fold_styled_runs l toks _ Hl).
Qed.

Lemma log_line_row (i : nat) (x : pyval) (toks : list Token) :
  as_line x = Some toks ->
  ColorhymnViewer.log_line i x = Ok (styled_row i toks).
Proof. apply rich_line_row. Qed.

Lemma ansi_token_run (x : pyval) (tok : Token) :
  as_token x = Some tok ->
  is_hex_color (color tok) = true ->
  ColorhymnRich.ansi_token rt x = Ok (ansi_run tok).
Proof.
  intros Hx Hc. apply as_token_inv in Hx. subst x.
  destruct (read_channels _ Hc) as (Hr & Hg & Hb).
  unfold ColorhymnRich.ansi_token, unpack3. cbn [iter].
  rewrite bind_ok. cbv beta iota.
  rewrite Hr, bind_ok, Hg, bind_ok, Hb, bind_ok. cbn [py_str].
  unfold ansi_run, sgr_color, Str.ESC. cbn [append].
  repeat (rewrite append_assoc; cbn [append]). reflexivity.
Qed.
End Lines.

Section AnsiLines.
Variable rt : Runtime.

Lemma fold_ansi_parts (l : list pyval) :
  forall (toks : list Token) (parts : list string),
    traverse as_token l = Some toks ->
    forallb (fun t => is_hex_color (color t)) toks = true ->
    fold_items l parts
      (fun parts token =>
         part <- ColorhymnRich.ansi_token rt token ;;
         Ok (parts ++ [part])%list)
    = Ok (parts ++ map ansi_run toks)%list.
Proof.
  induction l as [ | x l IH ]; intros toks parts H Hc.
  - apply traverse_nil in H. subst. cbn. now rewrite app_nil_r.
  - apply traverse_cons in H. destruct H as (tok & toks' & -> & Hx & Hl).
    cbn [forallb] in Hc. apply andb_prop in Hc. destruct Hc as [Hc Hcs].
    cbn [fold_items]. rewrite (ansi_token_run rt x tok Hx Hc), !bind_ok.
    rewrite (IH toks' _ Hl Hcs). cbn [map]. now rewrite <- app_assoc.
Qed.

Lemma ansi_line_row (i : nat) (x : pyval) (toks : list Token) :
  as_line x = Some toks ->
  forallb (fun t => is_hex_color (color t)) toks = true ->
  ColorhymnRich.ansi_line rt i x = Ok (ansi_row i toks).
Proof.
  intros H Hc. apply as_line_inv in H. destruct H as (l & -> & Hl).
  unfold ColorhymnRich.ansi_line. cbn [iter]. rewrite bind_ok.
  rewrite (fold_ansi_parts l toks _ Hl Hc), bind_ok.
  unfold ansi_row, Str.join, Str.ESC. cbn [app fold_right append].
  repeat (rewrite append_assoc; cbn [append]). reflexivity.
Qed.
End AnsiLines.

(** ** The loop over the lines *)

(** A loop that draws one row per item and appends it to the output draws
    the rows of the items, in order, numbered from where it starts. *)
Lemma for_enum_rows {A W} (read : pyval -> option A)
      (draw : nat -> pyval -> result W) (row : nat -> A -> W)
      (ok : A -> bool) :
  (forall i x a, read x = Some a -> ok a = true -> draw i x = Ok (row i a)) ->
  forall (l : list pyval) (L : list A) (i : nat) (out : list W),
    traverse read l = Some L ->
    forallb ok L = true ->
    for_enum i l
      (fun i x => r <~ lift (draw i x) ;; update (fun o => o ++ [r])%list) out
    = ((out ++ numbered row i L)%list, Ok tt).
Proof.
  intros Hdraw l.
  induction l as [ | x l IH ]; intros L i out H Hok.
  - apply traverse_nil in H. subst. cbn. now rewrite app_nil_r.
  - apply traverse_cons in H. destruct H as (a & L' & -> & Hx & Hl).
    cbn [forallb] in Hok. apply andb_prop in Hok. destruct Hok as [Ha Hok].
    cbn [for_enum]. unfold ebind at 1. unfold ebind at 1, lift at 1.
    rewrite (Hdraw i x a Hx Ha). unfold update at 1.
    rewrite (IH L' (S i) _ Hl Hok). cbn [numbered].
    now rewrite <- app_assoc.
Qed.

(** The rows already mounted stay, the new ones come after them. *)
Lemma mount_all_rows (rows : list Rich.Text) :
  forall self,
    ColorhymnViewer.log_container (ColorhymnViewer.mount_all rows self)
    = (ColorhymnViewer.log_container self ++ rows)%list
    /\ ColorhymnViewer.notifications (ColorhymnViewer.mount_all rows self)
       = ColorhymnViewer.notifications self
    /\ ColorhymnViewer.exited (ColorhymnViewer.mount_all rows self)
       = ColorhymnViewer.exited self
    /\ ColorhymnViewer.data (ColorhymnViewer.mount_all rows self)
       = ColorhymnViewer.data self
    /\ ColorhymnViewer.info_bar (ColorhymnViewer.mount_all rows self)
       = ColorhymnViewer.info_bar self.
Proof.
  unfold ColorhymnViewer.mount_all.
  induction rows as [ | r rows IH ]; intros self; cbn [fold_left].
  - now rewrite app_nil_r.
  - destruct (IH (ColorhymnViewer.mount r self)) as (-> & -> & -> & -> & ->).
    cbn. now rewrite <- app_assoc.
Qed.

Section LogLoop.
Variable rt : Runtime.

Lemma for_enum_mount (l : list pyval) :
  forall (L : list (list Token)) (i : nat) (self : ColorhymnViewer.App),
    traverse as_line l = Some L ->
    for_enum i l
      (fun i line_tokens =>
         if truthy line_tokens
         then text <~ lift (ColorhymnViewer.log_line i line_tokens) ;;
              update (ColorhymnViewer.mount text)
         else update (ColorhymnViewer.mount
                        (Rich.styled (fmt_5d i ++ " ") (PStr "dim")))) self
    = (ColorhymnViewer.mount_all (numbered styled_row i L) self, Ok tt).
Proof.
  induction l as [ | x l IH ]; intros L i self H.
  - apply traverse_nil in H. now subst.
  - apply traverse_cons in H. destruct H as (toks & L' & -> & Hx & Hl).
    cbn [for_enum numbered]. unfold ebind at 1.
    assert (Hrow :
      (if truthy x
       then text <~ lift (ColorhymnViewer.log_line i x) ;;
            update (ColorhymnViewer.mount text)
       else update (ColorhymnViewer.mount
                      (Rich.styled (fmt_5d i ++ " ") (PStr "dim")))) self
      = (ColorhymnViewer.mount (styled_row i toks) self, Ok tt)).
    { pose proof (log_line_row i x toks Hx) as Hline.
      apply as_line_inv in Hx. destruct Hx as (ts & -> & Hts).
      destruct ts as [ | t ts ]; cbn [truthy].
      - apply traverse_nil in Hts. now subst.
      - unfold ebind, lift. now rewrite Hline. }
    rewrite Hrow. now rewrite (IH L' (S i) _ Hl).
Qed.
End LogLoop.

(** ** A whole document, drawn *)

Lemma forallb_always {A} (l : list A) : forallb (fun _ => true) l = true.
Proof. induction l; cbn; auto. Qed.

Section Rendering.
Variable rt : Runtime.
Variables (v : pyval) (d : Document).
Hypothesis Hdoc : as_document v = Some d.

(** [render_rich]: the header, a blank line, one row per line. *)
Lemma render_rich_document (out : list Rich.Text) :
  ColorhymnRich.render_rich rt v out
  = ((out ++ [rich_header_of rt d; []])
       ++ numbered styled_row 1 (lines d), Ok tt)%list.
Proof.
  destruct (as_document_inv v d Hdoc)
    as (meta & ls & Hmeta & Hlines & Hf & Hn & Ht & Hm & Hls).
  unfold ColorhymnRich.render_rich.
  unfold ebind at 1, lift at 1. rewrite Hmeta.
  unfold ebind at 1, lift at 1.
  rewrite (rich_header_runs rt meta _ _ _ _ Hf Hn Ht Hm).
  unfold ebind at 1, update at 1. unfold ebind at 1, update at 1.
  unfold ebind at 1, lift at 1. rewrite Hlines. cbn [bind iter].
  rewrite (for_enum_rows as_line (ColorhymnRich.rich_line)
             styled_row (fun _ => true)
             (fun i x a Hx _ => rich_line_row i x a Hx)
             ls (lines d) 1 _ Hls (forallb_always _)).
  unfold rich_header_of. now rewrite <- !app_assoc.
Qed.

(** [render_ansi]: the banner, one string per line. *)
Lemma render_ansi_document (out : list string) :
  hex_colors d = true ->
  ColorhymnRich.render_ansi rt v out
  = ((out ++ [banner_of rt d]) ++ numbered ansi_row 1 (lines d), Ok tt)%list.
Proof.
  intros Hcolors.
  destruct (as_document_inv v d Hdoc)
    as (meta & ls & Hmeta & Hlines & Hf & Hn & Ht & Hm & Hls).
  unfold ColorhymnRich.render_ansi.
  unfold ebind at 1, lift at 1. rewrite Hmeta.
  unfold ebind at 1, lift at 1.
  unfold ColorhymnRich.ansi_banner. rewrite Hf, Hn, Ht, Hm. cbn [bind py_str].
  unfold ebind at 1, update at 1.
  unfold ebind at 1, lift at 1. rewrite Hlines. cbn [bind iter].
  rewrite (for_enum_rows as_line (ColorhymnRich.ansi_line rt)
             ansi_row (forallb (fun t => is_hex_color (color t)))
             (ansi_line_row rt)
             ls (lines d) 1 _ Hls Hcolors).
  reflexivity.
Qed.

(** [render_log]: the info bar, one mounted row per line. *)
Lemma render_log_document (self : ColorhymnViewer.App) :
  ColorhymnViewer.data self = v ->
  ColorhymnViewer.render_log rt self
  = (ColorhymnViewer.mount_all
       (numbered styled_row 1 (lines d))
       (ColorhymnViewer.info_bar_update (info_bar_of rt d) self), Ok tt).
Proof.
  intros Hdata.
  destruct (as_document_inv v d Hdoc)
    as (meta & ls & Hmeta & Hlines & Hf & Hn & Ht & Hm & Hls).
  unfold ColorhymnViewer.render_log. rewrite Hdata.
  rewrite (getitem_truthy v meta _ Hmeta). cbn [negb].
  unfold ebind at 1, lift at 1. rewrite Hmeta.
  unfold ebind at 1, lift at 1.
  rewrite (info_text_runs rt meta _ _ _ _ Hf Hn Ht Hm).
  unfold ebind at 1, update at 1.
  unfold ebind at 1, lift at 1. rewrite Hlines. cbn [bind iter].
  now rewrite (for_enum_mount ls (lines d) 1 _ Hls).
Qed.
End Rendering.

(** ** Fetching *)

Section Fetching.
Variable rt : Runtime.
Variables (seconds : Q) (p : CompletedProcess).
Hypothesis Hintime : Qle_bool seconds (inject_Z 30) = true.

(** A classifier that ends in time: [colorize_file] looks at its standard
    output only. *)
Lemma colorize_file_completed (path : string) :
  ColorhymnRich.colorize_file rt path (Exits seconds p)
  = (match Str.find "{" (stdout p) with
     | None => Raise (ValueError ("No JSON output: " ++ stderr p))
     | Some k => json_loads rt (Str.drop k (stdout p))
     end, Ended).
Proof.
  unfold ColorhymnRich.colorize_file, Subprocess.run.
  now rewrite Hintime.
Qed.

(** A classifier that ends in time with status 0 and a document of the
    contract on its standard output: [load_file] keeps the document, fills
    the info bar and mounts the rows, without a notification. *)
Lemma load_file_loaded (k : nat) (v : pyval) (d : Document)
      (self : ColorhymnViewer.App) :
  returncode p = 0%Z ->
  Str.find "{" (stdout p) = Some k ->
  json_loads rt (Str.drop k (stdout p)) = Ok v ->
  as_document v = Some d ->
  ColorhymnViewer.load_file rt (Exits seconds p) self
  = (ColorhymnViewer.mount_all
       (numbered styled_row 1 (lines d))
       (ColorhymnViewer.info_bar_update (info_bar_of rt d)
          (ColorhymnViewer.set_data v self)), Ended).
Proof.
  intros Hcode Hfind Hloads Hdoc.
  unfold ColorhymnViewer.load_file, Subprocess.run. rewrite Hintime.
  unfold ColorhymnViewer.load_file_try.
  unfold ebind at 1, lift at 1. rewrite Hcode. cbn [Z.eqb negb].
  rewrite Hfind. unfold ebind at 1, lift at 1. rewrite Hloads.
  unfold ebind at 1, update at 1.
  now rewrite (render_log_document rt v d Hdoc
                 (ColorhymnViewer.set_data v self) eq_refl).
Qed.
End Fetching.

(** C3. [line_count] is not checked against the lines and decides nothing:
    whatever it is, a document of the contract is handed over by the fetch
    as it was decoded, the static script draws it and ends with exit code 0
    with nothing on standard error, the viewer loads it without a
    notification, and [render_rich], [render_log] and (for hexadecimal
    colors) [render_ansi] draw exactly one row per entry of [lines], the row
    of entry [k] (from 0) carrying the number [k + 1]; [line_count] appears
    in the header only. *)
Theorem rows_follow_the_lines (rt : Runtime) (v : pyval) (d : Document) :
  as_document v = Some d ->
  (forall path seconds p k,
      Qle_bool seconds (inject_Z 30) = true ->
      Str.find "{" (stdout p) = Some k ->
      json_loads rt (Str.drop k (stdout p)) = Ok v ->
      ColorhymnRich.colorize_file rt path (Exits seconds p) = (Ok v, Ended)
      /\ (forall script,
             ColorhymnRich.main rt [script; path] true (Exits seconds p)
             = {| ColorhymnRich.console :=
                    rich_header_of rt d
                      :: [] :: numbered styled_row 1 (lines d);
                  ColorhymnRich.printed := [];
                  ColorhymnRich.errors := [];
                  ColorhymnRich.exit_code := 0 |})
      /\ (hex_colors d = true ->
          forall script,
            ColorhymnRich.main rt [script; path] false (Exits seconds p)
            = {| ColorhymnRich.console := [];
                 ColorhymnRich.printed :=
                   banner_of rt d :: numbered ansi_row 1 (lines d);
                 ColorhymnRich.errors := [];
                 ColorhymnRich.exit_code := 0 |})
      /\ (returncode p = 0%Z ->
          forall self,
            ColorhymnViewer.load_file rt (Exits seconds p) self
            = (ColorhymnViewer.mount_all
                 (numbered styled_row 1 (lines d))
                 (ColorhymnViewer.info_bar_update (info_bar_of rt d)
                    (ColorhymnViewer.set_data v self)), Ended)
            /\ ColorhymnViewer.notifications
                 (fst (ColorhymnViewer.load_file rt (Exits seconds p) self))
               = ColorhymnViewer.notifications self))
  /\ ColorhymnRich.render_rich rt v []
     = (rich_header_of rt d :: [] :: numbered styled_row 1 (lines d), Ok tt)
  /\ (forall self,
         ColorhymnViewer.data self = v ->
         ColorhymnViewer.render_log rt self
         = (ColorhymnViewer.mount_all
              (numbered styled_row 1 (lines d))
              (ColorhymnViewer.info_bar_update (info_bar_of rt d) self),
            Ok tt)
         /\ ColorhymnViewer.log_container
              (fst (ColorhymnViewer.render_log rt self))
            = (ColorhymnViewer.log_container self
                 ++ numbered styled_row 1 (lines d))%list)
  /\ (hex_colors d = true ->
      ColorhymnRich.render_ansi rt v []
      = (banner_of rt d :: numbered ansi_row 1 (lines d), Ok tt))
  /\ List.length (numbered styled_row 1 (lines d)) = List.length (lines d)
  /\ List.length (numbered ansi_row 1 (lines d)) = List.length (lines d)
  /\ (forall k tokens,
         nth_error (lines d) k = Some tokens ->
         nth_error (numbered styled_row 1 (lines d)) k
         = Some ((fmt_5d (S k) ++ " ", PStr "dim")
                   :: map (fun t => (text t, PStr (color t))) tokens)
         /\ nth_error (numbered ansi_row 1 (lines d)) k
            = Some (ansi_row (S k) tokens)).
Proof.
  intros Hdoc. repeat apply conj.
  - intros path seconds p k Hintime Hfind Hloads.
    assert (Hfetch :
      ColorhymnRich.colorize_file rt path (Exits seconds p) = (Ok v, Ended)).
    { rewrite (colorize_file_completed rt seconds p Hintime).
      now rewrite Hfind, Hloads. }
    repeat apply conj.
    + exact Hfetch.
    + intros script. unfold ColorhymnRich.main. rewrite Hfetch. cbn [fst].
      now rewrite (render_rich_document rt v d Hdoc []).
    + intros Hcolors script. unfold ColorhymnRich.main.
      rewrite Hfetch. cbn [fst].
      now rewrite (render_ansi_document rt v d Hdoc [] Hcolors).
    + intros Hcode self.
      rewrite (load_file_loaded rt seconds p Hintime k v d self
                 Hcode Hfind Hloads Hdoc).
      split; [ reflexivity | ]. cbn [fst].
      now destruct (mount_all_rows (numbered styled_row 1 (lines d))
                      (ColorhymnViewer.info_bar_update (info_bar_of rt d)
                         (ColorhymnViewer.set_data v self)))
        as (_ & -> & _).
  - exact (render_rich_document rt v d Hdoc []).
  - intros self Hdata.
    rewrite (render_log_document rt v d Hdoc self Hdata). split.
    + reflexivity.
    + cbn [fst]. now destruct (mount_all_rows (numbered styled_row 1 (lines d))
                    (ColorhymnViewer.info_bar_update (info_bar_of rt d) self))
        as (-> & _).
  - intros Hcolors. exact (render_ansi_document rt v d Hdoc [] Hcolors).
  - apply numbered_length.
  - apply numbered_length.
  - intros k tokens Hk. split.
    + exact (numbered_nth_error styled_row (lines d) 1 k tokens Hk).
    + exact (numbered_nth_error ansi_row (lines d) 1 k tokens Hk).
Qed.

(** The document that announces ten lines and has two is handed over and
    drawn in two rows, numbered 1 and 2. *)
Lemma rows_follow_the_lines_witness :
  as_document Examples.ten_claimed = Some Examples.ten_claimed_doc
  /\ ColorhymnRich.colorize_file Json.runtime "app.log"
       (Examples.exits_with 0 Examples.ten_claimed_output "")
     = (Ok Examples.ten_claimed, Ended)
  /\ ColorhymnRich.render_rich Json.runtime Examples.ten_claimed []
     = ([ [ ("━━━ app.log ", PStr "bold"); ("│ 10 lines ", PStr "dim");
            ("│ temp: ", PNone); ("warm", PStr "orange1");
            (" │ mood: ", PNone); ("uneasy", PStr "orange1");
            (" ━━━", PNone) ];
          [];
          [ ("    1 ", PStr "dim"); ("GET", PStr "#1e90ff");
            (" /", PStr "#A0A0A0") ];
          [ ("    2 ", PStr "dim") ] ], Ok tt).
Proof.
  split; [ reflexivity | ].
  destruct (rows_follow_the_lines Json.runtime Examples.ten_claimed
              Examples.ten_claimed_doc eq_refl) as (Hfetch & Hrich & _).
  split.
  - apply (Hfetch "app.log" (1 # 2)
             {| returncode := 0; stdout := Examples.ten_claimed_output;
                stderr := "" |} 25%nat);
      reflexivity.
  - exact Hrich.
Defined.

(** The fetch does not validate [line_count]: the classifier announces ten
    lines and prints two, the counts disagree, and neither back end of the
    static script prints anything on standard error, nor does the viewer
    notify anything. *)
Lemma line_count_is_not_validated :
  ~ spec_validates_line_count Json.runtime.
Proof.
  intros Hvalidates.
  destruct (Hvalidates "app.log"
              (Examples.exits_with 0 Examples.ten_claimed_output "")
              Examples.ten_claimed eq_refl eq_refl)
    as [(script & rich & Herrors) | (self & Hnotified)].
  - apply Herrors. now destruct rich.
  - apply Hnotified. reflexivity.
Qed.

(** ** What the raw renderer shows *)

Lemma sgr_params_app (a b : string) :
  sgr_params (a ++ b) = sgr_params a && sgr_params b.
Proof.
  induction a as [ | x a IH ]; cbn [append sgr_params]; [ reflexivity | ].
  now rewrite IH, andb_assoc.
Qed.

Lemma uint_params (d : Decimal.uint) :
  sgr_params (NilEmpty.string_of_uint d) = true.
Proof. induction d; cbn; auto. Qed.

(** The decimal writing of a natural number has digits only. *)
Lemma decimal_params (z : Z) : (0 <= z)%Z -> sgr_params (Str.decimal z) = true.
Proof.
  intros Hz. unfold Str.decimal.
  destruct z as [ | q | q ]; [ reflexivity | | lia ].
  cbn [Z.to_int NilZero.string_of_int]. unfold NilZero.string_of_uint.
  destruct (Pos.to_uint q) eqn:Hq; try reflexivity; rewrite <- Hq;
    apply uint_params.
Qed.

Lemma occurs_app (c : ascii) (a b : string) :
  Str.occurs c (a ++ b) = Str.occurs c a || Str.occurs c b.
Proof.
  induction a as [ | x a IH ]; cbn [append Str.occurs]; [ reflexivity | ].
  now rewrite IH, orb_assoc.
Qed.

Lemma params_no_escape (s : string) :
  sgr_params s = true -> Str.occurs (ascii_of_nat 27) s = false.
Proof.
  induction s as [ | a s IH ]; cbn [sgr_params Str.occurs]; [ reflexivity | ].
  intros H. apply andb_prop in H. destruct H as [Ha Hs].
  rewrite (IH Hs), orb_false_r.
  destruct (Ascii.eqb_spec a (ascii_of_nat 27)) as [-> | ]; [ | reflexivity ].
  discriminate Ha.
Qed.

Lemma spaces_no_escape (n : nat) :
  Str.occurs (ascii_of_nat 27) (Str.spaces n) = false.
Proof. induction n; cbn; auto. Qed.

(** The number prefix has no escape character of its own. *)
Lemma fmt_5d_no_escape (i : nat) :
  Str.occurs (ascii_of_nat 27) (fmt_5d i) = false.
Proof.
  unfold fmt_5d, Str.rjust. rewrite occurs_app, spaces_no_escape.
  apply params_no_escape, decimal_params. lia.
Qed.

Lemma shows_plain (s : string) :
  forall r v, shows r v -> shows (s ++ r) (s ++ v).
Proof.
  induction s as [ | a s IH ]; intros r v H; cbn [append]; [ exact H | ].
  apply shows_char, IH, H.
Qed.

Lemma ansi_run_shape (t : Token) (rest : string) :
  ansi_run t ++ rest
  = Str.ESC ++ "["
      ++ ("38;2;" ++ Str.decimal (red (color t)) ++ ";"
            ++ Str.decimal (green (color t)) ++ ";"
            ++ Str.decimal (blue (color t)))
      ++ "m" ++ (text t ++ (Str.ESC ++ "[" ++ "0" ++ "m" ++ rest)).
Proof.
  unfold ansi_run, sgr_color, Str.ESC. cbn [append].
  repeat (rewrite append_assoc; cbn [append]). reflexivity.
Qed.

Lemma sgr_color_params (c : string) :
  is_hex_color c = true ->
  sgr_params ("38;2;" ++ Str.decimal (red c) ++ ";" ++ Str.decimal (green c)
                ++ ";" ++ Str.decimal (blue c)) = true.
Proof.
  intros Hc. destruct (channel_range c Hc) as (Hr & Hg & Hb).
  rewrite !sgr_params_app.
  rewrite !decimal_params by lia. reflexivity.
Qed.

(** The runs of a line show the text of the line. *)
Lemma shows_runs (tokens : list Token) :
  forallb (fun t => is_hex_color (color t)) tokens = true ->
  shows (Str.join (map ansi_run tokens)) (line_text tokens).
Proof.
  induction tokens as [ | t tokens IH ]; intros Hc.
  - constructor.
  - cbn [forallb] in Hc. apply andb_prop in Hc. destruct Hc as [Ht Hc].
    unfold line_text, Str.join. cbn [map fold_right].
    rewrite ansi_run_shape.
    apply (shows_sgr _ _ _ (sgr_color_params _ Ht)).
    apply shows_plain.
    apply (shows_sgr "0" _ _ eq_refl).
    exact (IH Hc).
Qed.

(** A row shows its number, a space and the text of the line. *)
Lemma shows_row (i : nat) (tokens : list Token) :
  forallb (fun t => is_hex_color (color t)) tokens = true ->
  shows (ansi_row i tokens) (fmt_5d i ++ " " ++ line_text tokens).
Proof.
  intros Hc. unfold ansi_row.
  apply (shows_sgr "2" _ _ eq_refl).
  apply shows_plain.
  apply (shows_sgr "0" _ _ eq_refl).
  apply (shows_plain " "), shows_runs, Hc.
Qed.

Lemma sgr_tail_params (p s : string) :
  sgr_params p = true -> sgr_tail (p ++ String "m" s) = Some s.
Proof.
  induction p as [ | a p IH ]; intros Hp.
  - reflexivity.
  - cbn [sgr_params] in Hp. apply andb_prop in Hp. destruct Hp as [Ha Hp].
    cbn [append sgr_tail sgr_params].
    destruct (Ascii.eqb_spec a "m"%char) as [-> | ]; [ discriminate Ha | ].
    rewrite Ha. cbn [andb]. exact (IH Hp).
Qed.

Lemma length_suffix (p s : string) :
  (String.length s <= String.length (p ++ s))%nat.
Proof. induction p; cbn [append String.length]; lia. Qed.

(** On a text without escape characters, what a string shows is what
    stripping the escapes computes. *)
Lemma shows_strip (s v : string) :
  shows s v ->
  Str.occurs (ascii_of_nat 27) v = false ->
  forall fuel, (String.length s <= fuel)%nat -> strip_sgr fuel s = v.
Proof.
  induction 1 as [ | a s v _ IH | p s v Hp _ IH ]; intros Hv fuel Hfuel.
  - destruct fuel; reflexivity.
  - cbn [Str.occurs] in Hv. apply orb_false_elim in Hv.
    destruct Hv as [Ha Hv].
    destruct fuel as [ | fuel ]; [ cbn in Hfuel; lia | ].
    cbn [strip_sgr]. rewrite Ha. f_equal.
    apply (IH Hv). cbn in Hfuel. lia.
  - destruct fuel as [ | fuel ]; [ cbn in Hfuel; lia | ].
    unfold Str.ESC. cbn [append strip_sgr].
    rewrite Ascii.eqb_refl. cbn [append] in *.
    rewrite (sgr_tail_params p s Hp).
    apply (IH Hv).
    unfold Str.ESC in Hfuel. cbn [append String.length] in Hfuel.
    pose proof (length_suffix p (String "m" s)) as Hlen.
    cbn [String.length] in Hlen. lia.
Qed.

Lemma shows_visible (s v : string) :
  shows s v -> Str.occurs (ascii_of_nat 27) v = false -> visible s = v.
Proof. intros H Hv. apply (shows_strip s v H Hv). lia. Qed.

Lemma ansi_row_spelled (i : nat) (tokens : list Token) :
  ansi_row i tokens
  = Str.ESC ++ "[2m" ++ Str.rjust 5 (Str.decimal (Z.of_nat i)) ++ Str.ESC
      ++ "[0m" ++ " "
      ++ Str.join
           (map (fun t =>
                   Str.ESC ++ "[38;2;" ++ Str.decimal (red (color t)) ++ ";"
                     ++ Str.decimal (green (color t)) ++ ";"
                     ++ Str.decimal (blue (color t)) ++ "m"
                     ++ text t ++ Str.ESC ++ "[0m") tokens).
Proof.
  unfold ansi_row, fmt_5d.
  rewrite (map_ext ansi_run
             (fun t =>
                Str.ESC ++ "[38;2;" ++ Str.decimal (red (color t)) ++ ";"
                  ++ Str.decimal (green (color t)) ++ ";"
                  ++ Str.decimal (blue (color t)) ++ "m"
                  ++ text t ++ Str.ESC ++ "[0m")); [ reflexivity | ].
  intros t. unfold ansi_run, sgr_color, Str.ESC.
  cbn [append]. repeat (rewrite append_assoc; cbn [append]). reflexivity.
Qed.

(** C5. For a document of the contract with hexadecimal colors,
    [render_ansi] prints, after the banner, one string per line: for line
    [i] (from 1) it is [ESC[2m], [i] right-aligned in 5 characters, [ESC[0m],
    a space, then for each token in order [ESC[38;2;R;G;Bm], its text and
    [ESC[0m], with R, G, B the decimal values of the three pairs of
    hexadecimal digits of its color.  A line without tokens gives the number
    prefix alone and still one row.  With the escape sequences taken out a
    row reads: the number, a space, the token texts in order. *)
Theorem raw_row_format (rt : Runtime) (v : pyval) (d : Document) :
  as_document v = Some d ->
  hex_colors d = true ->
  ColorhymnRich.render_ansi rt v []
  = (banner_of rt d :: numbered ansi_row 1 (lines d), Ok tt)
  /\ List.length (numbered ansi_row 1 (lines d)) = List.length (lines d)
  /\ (forall k tokens,
         nth_error (lines d) k = Some tokens ->
         nth_error (numbered ansi_row 1 (lines d)) k
         = Some (ansi_row (S k) tokens)
         /\ ansi_row (S k) tokens
            = Str.ESC ++ "[2m" ++ Str.rjust 5 (Str.decimal (Z.of_nat (S k)))
                ++ Str.ESC ++ "[0m" ++ " "
                ++ Str.join
                     (map (fun t =>
                             Str.ESC ++ "[38;2;"
                               ++ Str.decimal (red (color t)) ++ ";"
                               ++ Str.decimal (green (color t)) ++ ";"
                               ++ Str.decimal (blue (color t)) ++ "m"
                               ++ text t ++ Str.ESC ++ "[0m") tokens)
         /\ (tokens = [] ->
             ansi_row (S k) tokens
             = Str.ESC ++ "[2m" ++ fmt_5d (S k) ++ Str.ESC ++ "[0m" ++ " ")
         /\ shows (ansi_row (S k) tokens)
                  (fmt_5d (S k) ++ " " ++ line_text tokens)
         /\ (Str.occurs (ascii_of_nat 27) (line_text tokens) = false ->
             visible (ansi_row (S k) tokens)
             = fmt_5d (S k) ++ " " ++ line_text tokens)).
Proof.
  intros Hdoc Hcolors. split; [ | split ].
  - exact (render_ansi_document rt v d Hdoc [] Hcolors).
  - apply numbered_length.
  - intros k tokens Hk.
    assert (Htok : forallb (fun t => is_hex_color (color t)) tokens = true).
    { unfold hex_colors in Hcolors. rewrite forallb_forall in Hcolors.
      apply Hcolors. eapply nth_error_In, Hk. }
    repeat apply conj.
    + exact (numbered_nth_error ansi_row (lines d) 1 k tokens Hk).
    + apply ansi_row_spelled.
    + now intros ->.
    + apply shows_row, Htok.
    + intros Hplain. apply shows_visible; [ apply shows_row, Htok | ].
      rewrite !occurs_app, fmt_5d_no_escape, Hplain. reflexivity.
Qed.

(** The scenario of the spec: three lines in red, green and blue. *)
Lemma raw_row_format_witness :
  as_document Examples.three_lines = Some Examples.three_lines_doc
  /\ hex_colors Examples.three_lines_doc = true
  /\ ColorhymnRich.render_ansi Json.runtime Examples.three_lines []
     = ([ "━━━ app.log │ 3 lines │ temp: critical │ mood: cool ━━━" ++ Str.LF;
          Str.ESC ++ "[2m    1" ++ Str.ESC ++ "[0m " ++ Str.ESC
            ++ "[38;2;255;0;0malpha" ++ Str.ESC ++ "[0m";
          Str.ESC ++ "[2m    2" ++ Str.ESC ++ "[0m " ++ Str.ESC
            ++ "[38;2;0;255;0mbeta" ++ Str.ESC ++ "[0m";
          Str.ESC ++ "[2m    3" ++ Str.ESC ++ "[0m " ++ Str.ESC
            ++ "[38;2;0;0;255mgamma" ++ Str.ESC ++ "[0m" ], Ok tt).
Proof.
  split; [ reflexivity | ]. split; [ reflexivity | ].
  exact (proj1 (raw_row_format Json.runtime Examples.three_lines
                  Examples.three_lines_doc eq_refl eq_refl)).
Defined.

(** ** The classifier's exit status and standard output *)

Lemma find_after_prefix (c : ascii) (pre rest : string) :
  Str.occurs c pre = false ->
  Str.find c (pre ++ String c rest) = Some (String.length pre)
  /\ Str.drop (String.length pre) (pre ++ String c rest) = String c rest.
Proof.
  induction pre as [ | a pre IH ]; cbn [Str.occurs append Str.find Str.drop
                                         String.length].
  - intros _. now rewrite Ascii.eqb_refl.
  - intros H. apply orb_false_elim in H. destruct H as [Ha Hpre].
    rewrite Ha. destruct (IH Hpre) as [-> ->]. now split.
Qed.

Lemma find_none (c : ascii) (s : string) :
  Str.occurs c s = false -> Str.find c s = None.
Proof.
  induction s as [ | a s IH ]; cbn [Str.occurs Str.find]; [ reflexivity | ].
  intros H. apply orb_false_elim in H. destruct H as [-> Hs].
  now rewrite (IH Hs).
Qed.

(** Whatever precedes the first brace on standard output is dropped: the
    decoder gets the text from the brace on. *)
Lemma colorize_file_skips_prefix (rt : Runtime) (path pre rest err : string)
      (code : Z) (seconds : Q) :
  Qle_bool seconds (inject_Z 30) = true ->
  Str.occurs "{" pre = false ->
  ColorhymnRich.colorize_file rt path
    (Exits seconds {| returncode := code; stdout := pre ++ String "{" rest;
                      stderr := err |})
  = (json_loads rt (String "{" rest), Ended).
Proof.
  intros Hintime Hpre. rewrite (colorize_file_completed rt _ _ Hintime).
  cbn [stdout]. destruct (find_after_prefix "{" pre rest Hpre) as [-> ->].
  reflexivity.
Qed.

(** The static script, without a brace on standard output: a [ValueError]
    whose message ends with the standard error of the classifier. *)
Lemma colorize_file_no_json (rt : Runtime) (path : string) (seconds : Q)
      (p : CompletedProcess) :
  Qle_bool seconds (inject_Z 30) = true ->
  Str.occurs "{" (stdout p) = false ->
  ColorhymnRich.colorize_file rt path (Exits seconds p)
  = (Raise (ValueError ("No JSON output: " ++ stderr p)), Ended).
Proof.
  intros Hintime Hout. rewrite (colorize_file_completed rt _ _ Hintime).
  now rewrite (find_none _ _ Hout).
Qed.

(** The viewer, on a non-zero exit status: the standard error is notified
    and nothing is loaded. *)
Lemma load_file_failed_exit (rt : Runtime) (seconds : Q)
      (p : CompletedProcess) (self : ColorhymnViewer.App) :
  Qle_bool seconds (inject_Z 30) = true ->
  returncode p <> 0%Z ->
  ColorhymnViewer.load_file rt (Exits seconds p) self
  = (ColorhymnViewer.notify ("Error: " ++ stderr p) "error" self, Ended).
Proof.
  intros Hintime Hcode.
  unfold ColorhymnViewer.load_file, Subprocess.run. rewrite Hintime.
  unfold ColorhymnViewer.load_file_try. unfold ebind, lift.
  apply Z.eqb_neq in Hcode. now rewrite Hcode.
Qed.


(** C2. [colorize_file] never looks at the exit status: when the classifier
    exits with a non-zero status and its standard output holds a JSON
    object, the static script gets the decoded value and goes on to draw it,
    where the viewer notifies the standard error. *)
Theorem static_fetch_ignores_exit_status (rt : Runtime) (path : string)
        (seconds : Q) (p : CompletedProcess) (k : nat) (v : pyval) :
  Qle_bool seconds (inject_Z 30) = true ->
  returncode p <> 0%Z ->
  Str.find "{" (stdout p) = Some k ->
  json_loads rt (Str.drop k (stdout p)) = Ok v ->
  ColorhymnRich.colorize_file rt path (Exits seconds p) = (Ok v, Ended)
  /\ (forall d script,
         as_document v = Some d ->
         ColorhymnRich.main rt [script; path] true (Exits seconds p)
         = {| ColorhymnRich.console :=
                rich_header_of rt d :: []
                  :: numbered styled_row 1 (lines d);
              ColorhymnRich.printed := [];
              ColorhymnRich.errors := [];
              ColorhymnRich.exit_code := 0 |})
  /\ (forall self,
         ColorhymnViewer.load_file rt (Exits seconds p) self
         = (ColorhymnViewer.notify ("Error: " ++ stderr p) "error" self,
            Ended)).
Proof.
  intros Hintime Hcode Hfind Hloads.
  assert (Hfetch :
    ColorhymnRich.colorize_file rt path (Exits seconds p) = (Ok v, Ended)).
  { rewrite (colorize_file_completed rt _ _ Hintime).
    now rewrite Hfind, Hloads. }
  split; [ exact Hfetch | split ].
  - intros d script Hdoc. unfold ColorhymnRich.main.
    rewrite Hfetch. cbn [fst].
    now rewrite (render_rich_document rt v d Hdoc []).
  - intros self. now apply load_file_failed_exit.
Qed.

(** A classifier that fails with status 1 after printing a document. *)
Lemma static_fetch_ignores_exit_status_witness :
  ColorhymnRich.colorize_file Json.runtime "app.log"
    (Examples.exits_with 1 Examples.ten_claimed_output "mix: task failed")
  = (Ok Examples.ten_claimed, Ended)
  /\ ColorhymnRich.exit_code
       (ColorhymnRich.main Json.runtime ["colorhymn_rich.py"; "app.log"] true
          (Examples.exits_with 1 Examples.ten_claimed_output
                               "mix: task failed"))
     = 0%Z.
Proof.
  destruct (static_fetch_ignores_exit_status Json.runtime "app.log" (1 # 2)
              {| returncode := 1; stdout := Examples.ten_claimed_output;
                 stderr := "mix: task failed" |}
              25%nat Examples.ten_claimed eq_refl
              ltac:(discriminate) eq_refl eq_refl) as (Hfetch & Hmain & _).
  split; [ exact Hfetch | ].
  unfold Examples.exits_with.
  now rewrite (Hmain Examples.ten_claimed_doc "colorhymn_rich.py" eq_refl).
Defined.

(** C4. Without a brace on standard output the static script reports the
    standard error ([ValueError("No JSON output: boom")], printed by [main]),
    while the viewer, on exit status 0, notifies a fixed text in which the
    standard error does not appear. *)
Theorem viewer_no_json_omits_stderr (rt : Runtime)
        (self : ColorhymnViewer.App) :
  ColorhymnRich.colorize_file rt "app.log"
    (Examples.exits_with 0 "warning: foo" "boom")
  = (Raise (ValueError "No JSON output: boom"), Ended)
  /\ ColorhymnRich.errors
       (ColorhymnRich.main rt ["colorhymn_rich.py"; "app.log"] true
          (Examples.exits_with 0 "warning: foo" "boom"))
     = [ "Error: No JSON output: boom" ]
  /\ ColorhymnViewer.load_file rt
       (Examples.exits_with 0 "warning: foo" "boom") self
     = (ColorhymnViewer.notify "No JSON output from colorhymn" "error" self,
        Ended)
  /\ contains "boom" "No JSON output from colorhymn" = false
  /\ contains "boom" "No JSON output: boom" = true.
Proof.
  repeat split.
Qed.

(** ** The timeout *)

Lemma run_outlived (args : list string) (cwd : string) (timeout : Z)
      (c : child) :
  outlives timeout c = true ->
  Subprocess.run args cwd timeout c
  = (Raise (TimeoutExpired args timeout), Killed).
Proof.
  destruct c as [ e | seconds p | ]; cbn [outlives Subprocess.run].
  - discriminate.
  - intros H. apply negb_true_iff in H. now rewrite H.
  - reflexivity.
Qed.

Lemma run_never_leaves (args : list string) (cwd : string) (timeout : Z)
      (c : child) :
  snd (Subprocess.run args cwd timeout c) <> Running.
Proof.
  destruct c as [ e | seconds p | ]; cbn [Subprocess.run];
    try destruct (Qle_bool _ _); cbn [snd]; discriminate.
Qed.

(** C6. Both scripts run the classifier with a timeout of 30 seconds.  When
    the classifier runs longer, [colorize_file] raises [TimeoutExpired] (and
    [main] ends with exit code 1 without having drawn anything), [load_file]
    notifies the timeout and loads nothing, and the child has been killed;
    on no path is the child left running. *)
Theorem timeout_is_enforced (rt : Runtime) (path : string) (c : child) :
  outlives 30 c = true ->
  ColorhymnRich.colorize_file rt path c
  = (Raise (TimeoutExpired ["mix"; "colorize"; path] 30), Killed)
  /\ (forall script rich,
         ColorhymnRich.main rt [script; path] rich c
         = {| ColorhymnRich.console := [];
              ColorhymnRich.printed := [];
              ColorhymnRich.errors :=
                [ "Error: "
                    ++ exn_str rt
                         (TimeoutExpired ["mix"; "colorize"; path] 30) ];
              ColorhymnRich.exit_code := 1 |})
  /\ (forall self,
         ColorhymnViewer.load_file rt c self
         = (ColorhymnViewer.notify "Colorhymn timed out" "error" self,
            Killed))
  /\ (forall c' path' self,
         snd (ColorhymnRich.colorize_file rt path' c') <> Running
         /\ snd (ColorhymnViewer.load_file rt c' self) <> Running).
Proof.
  intros Hlong.
  assert (Hfetch :
    ColorhymnRich.colorize_file rt path c
    = (Raise (TimeoutExpired ["mix"; "colorize"; path] 30), Killed)).
  { unfold ColorhymnRich.colorize_file. now rewrite run_outlived. }
  repeat apply conj.
  - exact Hfetch.
  - intros script rich. unfold ColorhymnRich.main. now rewrite Hfetch.
  - intros self. unfold ColorhymnViewer.load_file. now rewrite run_outlived.
  - intros c' path' self. split.
    + unfold ColorhymnRich.colorize_file.
      pose proof (run_never_leaves ["mix"; "colorize"; path']
                    (install_root rt) 30 c') as H.
      now destruct (Subprocess.run _ _ _ c').
    + unfold ColorhymnViewer.load_file.
      pose proof (run_never_leaves
                    ["mix"; "colorize"; ColorhymnViewer.file_path self]
                    (install_root rt) 30 c') as H.
      now destruct (Subprocess.run _ _ _ c').
Qed.

(** A classifier that would end after 31 seconds. *)
Lemma timeout_is_enforced_witness :
  outlives 30 (Exits (31 # 1)
                 {| returncode := 0; stdout := Examples.ten_claimed_output;
                    stderr := "" |}) = true
  /\ ColorhymnRich.colorize_file Json.runtime "app.log"
       (Exits (31 # 1)
          {| returncode := 0; stdout := Examples.ten_claimed_output;
             stderr := "" |})
     = (Raise (TimeoutExpired ["mix"; "colorize"; "app.log"] 30), Killed).
Proof.
  split; [ reflexivity | ].
  exact (proj1 (timeout_is_enforced Json.runtime "app.log"
                  (Exits (31 # 1)
                     {| returncode := 0;
                        stdout := Examples.ten_claimed_output;
                        stderr := "" |}) eq_refl)).
Defined.

(** ** Notifications *)

Import ColorhymnViewer.






(** What [load_file] does with an exception of its [try] body. *)
Lemma load_file_except (rt : Runtime) (c : child) (self self' : App)
      (e : exn) :
  load_file_try rt
    (fst (Subprocess.run ["mix"; "colorize"; file_path self]
            (install_root rt) 30 c)) self
  = (self', Raise e) ->
  fst (load_file rt c self) = notify (failure_message rt e) "error" self'.
Proof.
  unfold load_file.
  destruct (Subprocess.run _ _ _ c) as [ran left]. cbn [fst].
  intros ->. now destruct e.
Qed.








Lemma same_content_refl (self : App) : same_content self self.
Proof. repeat split. Qed.

Lemma same_content_trans (a b c : App) :
  same_content a b -> same_content b c -> same_content a c.
Proof.
  intros (H1 & H2 & H3 & H4) (K1 & K2 & K3 & K4).
  repeat split; congruence.
Qed.

(** A key of [BINDINGS] changes neither the data, the info bar, the rows
    nor the file path. *)
Lemma press_same_content (fw : Framework) (key : string) (self : App) :
  bound key = true -> same_content self (press fw key self).
Proof.
  intros Hbound. unfold press.
  destruct (exited self); [ repeat split | ].
  unfold bound in Hbound. cbn [existsb find BINDINGS fst snd] in *.
  repeat match goal with
         | |- context [String.eqb ?k key] => destruct (String.eqb k key)
         end; try (repeat split; fail).
  discriminate Hbound.
Qed.

(** The search key adds its warning, the other keys of [BINDINGS] add
    nothing. *)
Lemma press_notifications (fw : Framework) (key : string) (self : App) :
  exited self = false ->
  bound key = true ->
  notifications (press fw key self)
  = (notifications self
       ++ (if String.eqb key "/" then [search_warning] else []))%list.
Proof.
  intros Hexited Hbound. unfold press. rewrite Hexited.
  unfold bound in Hbound. cbn [existsb find BINDINGS fst snd] in *.
  destruct (String.eqb_spec key "/") as [-> | Hsearch].
  - reflexivity.
  - repeat match goal with
           | |- context [String.eqb ?k key] =>
               destruct (String.eqb_spec k key) as [Heq | ?];
               [ try (now contradiction Hsearch);
                 cbn; now rewrite app_nil_r
               | ]
           end.
    discriminate Hbound.
Qed.

(** Rendering the screen changes nothing but, at most, [exited]. *)
Lemma refresh_same_content (fw : Framework) (self : App) :
  same_content self (refresh fw self)
  /\ notifications (refresh fw self) = notifications self.
Proof.
  unfold refresh. destruct (exited self); [ repeat split | ].
  destruct (info_bar self), (log_container self); try (repeat split; fail);
    destruct (can_display fw self); repeat split.
Qed.



(** An application that has exited handles no event. *)
Lemma steps_exited (fw : Framework) (keys : list string) :
  forall self,
    exited self = true ->
    fold_left (fun app key => step fw key app) keys self = self.
Proof.
  induction keys as [ | key keys IH ]; intros self Hexited; cbn [fold_left].
  - reflexivity.
  - assert (Hstep : step fw key self = self).
    { unfold step, press, refresh. now rewrite !Hexited. }
    rewrite Hstep. now apply IH.
Qed.

(** Keys of [BINDINGS] change neither the data, the info bar, the rows nor
    the file path; the notifications they add are search warnings, one per
    press of the search key when the application has not exited by the
    end. *)
Lemma keys_content_and_warnings (fw : Framework) (keys : list string) :
  forall self,
    Forall (fun key => bound key = true) keys ->
    same_content self (fold_left (fun app key => step fw key app) keys self)
    /\ exists n,
         (n <= searches keys)%nat
         /\ notifications
              (fold_left (fun app key => step fw key app) keys self)
            = (notifications self ++ repeat search_warning n)%list
         /\ (exited (fold_left (fun app key => step fw key app) keys self)
             = false ->
             n = searches keys).
Proof.
  induction keys as [ | key keys IH ]; intros self Hbound;
    cbn [fold_left searches].
  - split; [ repeat split | ]. exists 0%nat. cbn [repeat].
    rewrite app_nil_r. repeat split. apply Nat.le_refl.
  - inversion Hbound as [ | ? ? Hkey Hkeys ]; subst.
    destruct (exited self) eqn:Hexited.
    + assert (Hstep : step fw key self = self).
      { unfold step, press, refresh. now rewrite !Hexited. }
      rewrite Hstep, (steps_exited fw keys self Hexited).
      split; [ repeat split | ]. exists 0%nat. cbn [repeat].
      rewrite app_nil_r. repeat split; [ apply Nat.le_0_l | ].
      intros H. congruence.
    + destruct (IH (step fw key self) Hkeys) as (Hsame & n & Hle & Hn & Hall).
      destruct (refresh_same_content fw (press fw key self))
        as [Hshown Hnotes].
      split.
      * apply (same_content_trans _ (step fw key self)); [ | exact Hsame ].
        apply (same_content_trans _ (press fw key self));
          [ now apply press_same_content | exact Hshown ].
      * assert (Hstep :
          notifications (step fw key self)
          = (notifications self
               ++ (if String.eqb key "/" then [search_warning] else []))%list).
        { unfold step. rewrite Hnotes. now apply press_notifications. }
        rewrite Hn, Hstep, <- app_assoc.
        destruct (String.eqb key "/").
        -- exists (S n). cbn [repeat app]. repeat split.
           ++ now apply le_n_S.
           ++ intros H. now rewrite (Hall H).
        -- exists n. cbn [app]. repeat split; assumption.
Qed.





(** The empty object decodes to a [dict] that counts as false: [render_log]
    returns at once, and nothing is drawn or notified. *)
Lemma empty_object_is_silent (self : App) :
  load_file Json.runtime (Examples.exits_with 0 "{}" "") self
  = (set_data (PDict []) self, Ended).
Proof. reflexivity. Qed.

(** ** Navigation *)

Lemma scroll_to_in_range (n : Z) (v : Textual.Viewport) (y : Z) :
  (0 <= Textual.scroll_offset (Textual.scroll_to n v y)
   <= Textual.max_offset n v)%Z.
Proof. unfold Textual.scroll_to, Textual.max_offset. cbn. lia. Qed.

(** C8. Each navigation action of the viewer calls the scrolling method of
    the container that the spec describes: the offset stays in
    [[0, max(0, line_count - viewport_height)]], the top is 0, the bottom is
    the largest offset, a line or a page moves it by 1 or by the viewport
    height, clamped; a page down at the largest offset changes nothing. *)
Theorem navigation_keeps_offset_in_range (self : App) :
  (0 < Textual.viewport_height (viewport self))%Z ->
  Textual.scroll_offset (viewport (action_scroll_top self)) = 0%Z
  /\ Textual.scroll_offset (viewport (action_scroll_bottom self))
     = Z.max 0 (row_count self - Textual.viewport_height (viewport self))
  /\ Textual.scroll_offset (viewport (action_scroll_down self))
     = Z.max 0 (Z.min (Textual.scroll_offset (viewport self) + 1)
                      (Textual.max_offset (row_count self) (viewport self)))
  /\ Textual.scroll_offset (viewport (action_scroll_up self))
     = Z.max 0 (Z.min (Textual.scroll_offset (viewport self) - 1)
                      (Textual.max_offset (row_count self) (viewport self)))
  /\ Textual.scroll_offset (viewport (action_page_down self))
     = Z.max 0 (Z.min (Textual.scroll_offset (viewport self)
                         + Textual.viewport_height (viewport self))
                      (Textual.max_offset (row_count self) (viewport self)))
  /\ Textual.scroll_offset (viewport (action_page_up self))
     = Z.max 0 (Z.min (Textual.scroll_offset (viewport self)
                         - Textual.viewport_height (viewport self))
                      (Textual.max_offset (row_count self) (viewport self)))
  /\ Forall (fun action =>
               (0 <= Textual.scroll_offset (viewport (action self))
                <= Z.max 0 (row_count self
                            - Textual.viewport_height (viewport self)))%Z
               /\ Textual.viewport_height (viewport (action self))
                  = Textual.viewport_height (viewport self)
               /\ row_count (action self) = row_count self)
            Examples.navigation
  /\ (Textual.scroll_offset (viewport self)
      = Textual.max_offset (row_count self) (viewport self) ->
      Textual.scroll_offset (viewport (action_page_down self))
      = Textual.scroll_offset (viewport self))
  /\ (forall fw,
         exited self = false ->
         press fw "g" self = action_scroll_top self
         /\ press fw "G" self = action_scroll_bottom self
         /\ press fw "j" self = action_scroll_down self
         /\ press fw "k" self = action_scroll_up self
         /\ press fw "ctrl+d" self = action_page_down self
         /\ press fw "ctrl+u" self = action_page_up self).
Proof.
  intros Hheight. repeat apply conj; try reflexivity.
  - cbn. unfold Textual.max_offset. lia.
  - cbn. unfold Textual.max_offset. lia.
  - unfold Examples.navigation.
    repeat constructor;
      try apply (scroll_to_in_range (row_count self) (viewport self)).
  - intros Hmax. cbn. unfold Textual.max_offset in *. lia.
  - intros fw Hexited. unfold press. rewrite Hexited. repeat split.
Qed.

(** The example of the spec: 100 lines, 20 visible. *)
Lemma navigation_keeps_offset_in_range_witness :
  (0 < Textual.viewport_height (viewport Examples.hundred_rows))%Z
  /\ Textual.scroll_offset
       (viewport (action_scroll_bottom Examples.hundred_rows)) = 80%Z
  /\ Textual.scroll_offset
       (viewport (action_page_down
                    (action_scroll_bottom Examples.hundred_rows))) = 80%Z.
Proof.
  split; [ reflexivity | ].
  destruct (navigation_keeps_offset_in_range Examples.hundred_rows eq_refl)
    as (_ & Hbottom & _).
  destruct (navigation_keeps_offset_in_range
              (action_scroll_bottom Examples.hundred_rows) eq_refl)
    as (_ & _ & _ & _ & _ & _ & _ & Hpage & _).
  split.
  - exact Hbottom.
  - rewrite (Hpage eq_refl). exact Hbottom.
Defined.

(** ** Tokens outside the contract *)

(** C10. A token with two elements makes the three renderers raise when
    they unpack it, after the header; a color that is not ['#'] and six
    hexadecimal digits makes [render_ansi] raise when it reads the color,
    where [render_rich] draws the row; [main] then prints a generic error
    and ends with exit code 1. *)
Theorem ill_formed_token_raises (rt : Runtime) :
  ColorhymnRich.render_rich rt Examples.short_token []
  = ([ [ ("━━━ app.log ", PStr "bold"); ("│ 3 lines ", PStr "dim");
         ("│ temp: ", PNone); ("critical", PStr "red");
         (" │ mood: ", PNone); ("cool", PStr "red"); (" ━━━", PNone) ];
       [] ],
     Raise (Builtin (UnpackCount 3 2)))
  /\ ColorhymnRich.render_ansi rt Examples.short_token []
     = ([ "━━━ app.log │ 3 lines │ temp: critical │ mood: cool ━━━"
            ++ Str.LF ],
        Raise (Builtin (UnpackCount 3 2)))
  /\ (forall self,
         snd (render_log rt (set_data Examples.short_token self))
         = Raise (Builtin (UnpackCount 3 2))
         /\ log_container
              (fst (render_log rt (set_data Examples.short_token self)))
            = log_container self)
  /\ ColorhymnRich.render_ansi rt Examples.named_color []
     = ([ "━━━ app.log │ 3 lines │ temp: critical │ mood: cool ━━━"
            ++ Str.LF ],
        Raise (Builtin (InvalidLiteral "re")))
  /\ snd (ColorhymnRich.render_rich rt Examples.named_color []) = Ok tt
  /\ (forall script path rich c,
         fst (ColorhymnRich.colorize_file rt path c)
         = Ok Examples.short_token ->
         ColorhymnRich.exit_code (ColorhymnRich.main rt [script; path] rich c)
         = 1%Z
         /\ ColorhymnRich.errors
              (ColorhymnRich.main rt [script; path] rich c)
            = [ "Error: " ++ error_text rt (UnpackCount 3 2) ])
  /\ (forall script path c,
         fst (ColorhymnRich.colorize_file rt path c)
         = Ok Examples.named_color ->
         ColorhymnRich.exit_code
           (ColorhymnRich.main rt [script; path] false c) = 1%Z
         /\ ColorhymnRich.errors
              (ColorhymnRich.main rt [script; path] false c)
            = [ "Error: " ++ error_text rt (InvalidLiteral "re") ]
         /\ ColorhymnRich.exit_code
              (ColorhymnRich.main rt [script; path] true c) = 0%Z).
Proof.
  repeat apply conj; try reflexivity.
  - intros self. split; reflexivity.
  - intros script path rich c Hfetch.
    unfold ColorhymnRich.main. rewrite Hfetch. now destruct rich.
  - intros script path c Hfetch.
    unfold ColorhymnRich.main. rewrite Hfetch. repeat split.
Qed.

(** The classifier prints a token of two elements: both back ends of the
    static script end with exit code 1. *)
Lemma short_token_exit_code (rich : bool) :
  ColorhymnRich.exit_code
    (ColorhymnRich.main Json.runtime ["colorhymn_rich.py"; "app.log"] rich
       (Examples.exits_with 0 Examples.short_token_output ""))
  = 1%Z.
Proof. now destruct rich. Qed.

(** The precondition on colors is about the six digits the raw renderer
    reads: the first character and whatever follows the seventh are never
    looked at. *)
Lemma unread_characters (rt : Runtime) :
  ColorhymnRich.ansi_token rt (PList [PStr "word"; PStr "alpha";
                                      PStr "xFF8000 and more"])
  = Ok (Str.ESC ++ "[38;2;255;128;0malpha" ++ Str.ESC ++ "[0m").
Proof. reflexivity. Qed.

(** ** The text of a line *)







(* ================================================================== *)
(** * Beyond the contract *)

(** ** Loops, pieces of loops *)

Lemma for_enum_app {St} (body : nat -> pyval -> eff St unit)
      (l1 l2 : list pyval) :
  forall i s,
    for_enum i (l1 ++ l2) body s
    = match for_enum i l1 body s with
      | (s', Ok _) => for_enum (i + List.length l1) l2 body s'
      | (s', Raise e) => (s', Raise e)
      end.
Proof.
  induction l1 as [ | x l1 IH ]; intros i s; cbn [app for_enum List.length].
  - cbn. now rewrite Nat.add_0_r.
  - unfold ebind. destruct (body i x s) as [s' [u | e]].
    + rewrite IH. now replace (S i + List.length l1)%nat
                        with (i + S (List.length l1))%nat by lia.
    + reflexivity.
Qed.

Lemma numbered_app {A B} (f : nat -> A -> B) (l1 l2 : list A) :
  forall i,
    numbered f i (l1 ++ l2)
    = (numbered f i l1 ++ numbered f (i + List.length l1) l2)%list.
Proof.
  induction l1 as [ | x l1 IH ]; intros i; cbn [app numbered List.length].
  - now rewrite Nat.add_0_r.
  - rewrite IH. now replace (S i + List.length l1)%nat
                      with (i + S (List.length l1))%nat by lia.
Qed.

Lemma traverse_length {A} (f : pyval -> option A) (l : list pyval) :
  forall L, traverse f l = Some L -> List.length L = List.length l.
Proof.
  induction l as [ | x l IH ]; intros L H.
  - apply traverse_nil in H. now subst.
  - apply traverse_cons in H. destruct H as (a & L' & -> & _ & Hl).
    cbn. now rewrite (IH L' Hl).
Qed.

Lemma as_metadata_inv (meta : pyval) (d : Document) :
  as_metadata meta = Some d ->
  getitem meta "filename" = Ok (filename d)
  /\ getitem meta "line_count" = Ok (line_count d)
  /\ getitem meta "temperature" = Ok (PStr (temperature d))
  /\ getitem meta "mood" = Ok (PStr (mood d)).
Proof.
  unfold as_metadata.
  destruct (getitem meta "filename") as [f | ]; [ | discriminate ].
  destruct (getitem meta "line_count") as [n | ]; [ | discriminate ].
  destruct (getitem meta "temperature") as [[ | | | | t | | ] | ];
    try discriminate.
  destruct (getitem meta "mood") as [[ | | | | m | | ] | ]; try discriminate.
  intros [= <-]. cbn. repeat split.
Qed.

Lemma as_envelope_inv (v : pyval) (d : Document) (entries : list pyval) :
  as_envelope v = Some (d, entries) ->
  exists meta,
    getitem v "metadata" = Ok meta
    /\ as_metadata meta = Some d
    /\ getitem v "lines" = Ok (PList entries).
Proof.
  unfold as_envelope.
  destruct (getitem v "metadata") as [meta | ] eqn:Hmeta; [ | discriminate ].
  destruct (getitem v "lines") as [[ | | | | | ls | ] | ] eqn:Hlines;
    try discriminate.
  destruct (as_metadata meta) as [d' | ] eqn:Hd; [ | discriminate ].
  intros [= <- <-]. now exists meta.
Qed.

(** The headers only read the metadata. *)
Lemma headers_of_metadata (rt : Runtime) (meta : pyval) (d : Document) :
  as_metadata meta = Some d ->
  ColorhymnRich.rich_header rt meta = Ok (rich_header_of rt d)
  /\ ColorhymnViewer.info_text rt meta = Ok (info_bar_of rt d)
  /\ ColorhymnRich.ansi_banner rt meta = Ok (banner_of rt d).
Proof.
  intros H. destruct (as_metadata_inv meta d H) as (Hf & Hn & Ht & Hm).
  repeat split.
  - exact (rich_header_runs rt meta _ _ _ _ Hf Hn Ht Hm).
  - exact (info_text_runs rt meta _ _ _ _ Hf Hn Ht Hm).
  - unfold ColorhymnRich.ansi_banner. now rewrite Hf, Hn, Ht, Hm.
Qed.

(** The three renderers, up to their loop over the entries of [lines]. *)
Section UpToTheLoop.
Variable rt : Runtime.
Variables (v : pyval) (d : Document) (entries : list pyval).
Hypothesis Henv : as_envelope v = Some (d, entries).

Lemma render_rich_loop (out : list Rich.Text) :
  ColorhymnRich.render_rich rt v out
  = for_enum 1 entries
      (fun i line_tokens =>
         text <~ lift (ColorhymnRich.rich_line i line_tokens) ;;
         update (fun console => console ++ [text])%list)
      (out ++ [rich_header_of rt d; []])%list.
Proof.
  destruct (as_envelope_inv v d entries Henv) as (meta & Hmeta & Hd & Hl).
  destruct (headers_of_metadata rt meta d Hd) as (Hh & _ & _).
  unfold ColorhymnRich.render_rich.
  unfold ebind at 1, lift at 1. rewrite Hmeta.
  unfold ebind at 1, lift at 1. rewrite Hh.
  unfold ebind at 1, update at 1. unfold ebind at 1, update at 1.
  unfold ebind at 1, lift at 1. rewrite Hl. cbn [bind iter].
  now rewrite <- app_assoc.
Qed.

Lemma render_ansi_loop (out : list string) :
  ColorhymnRich.render_ansi rt v out
  = for_enum 1 entries
      (fun i line_tokens =>
         row <~ lift (ColorhymnRich.ansi_line rt i line_tokens) ;;
         update (fun out => out ++ [row])%list)
      (out ++ [banner_of rt d])%list.
Proof.
  destruct (as_envelope_inv v d entries Henv) as (meta & Hmeta & Hd & Hl).
  destruct (headers_of_metadata rt meta d Hd) as (_ & _ & Hb).
  unfold ColorhymnRich.render_ansi.
  unfold ebind at 1, lift at 1. rewrite Hmeta.
  unfold ebind at 1, lift at 1. rewrite Hb.
  unfold ebind at 1, update at 1.
  unfold ebind at 1, lift at 1. rewrite Hl. reflexivity.
Qed.

Lemma render_log_loop (self : ColorhymnViewer.App) :
  ColorhymnViewer.data self = v ->
  ColorhymnViewer.render_log rt self
  = for_enum 1 entries
      (fun i line_tokens =>
         if truthy line_tokens
         then text <~ lift (ColorhymnViewer.log_line i line_tokens) ;;
              update (ColorhymnViewer.mount text)
         else update (ColorhymnViewer.mount
                        (Rich.styled (fmt_5d i ++ " ") (PStr "dim"))))
      (ColorhymnViewer.info_bar_update (info_bar_of rt d) self).
Proof.
  intros Hdata.
  destruct (as_envelope_inv v d entries Henv) as (meta & Hmeta & Hd & Hl).
  destruct (headers_of_metadata rt meta d Hd) as (_ & Hi & _).
  unfold ColorhymnViewer.render_log. rewrite Hdata.
  rewrite (getitem_truthy v meta _ Hmeta). cbn [negb].
  unfold ebind at 1, lift at 1. rewrite Hmeta.
  unfold ebind at 1, lift at 1. rewrite Hi.
  unfold ebind at 1, update at 1.
  unfold ebind at 1, lift at 1. rewrite Hl. reflexivity.
Qed.
End UpToTheLoop.

(** ** The first entry that cannot be drawn *)

Section FirstFailure.
Variable rt : Runtime.
Variables (v : pyval) (d : Document).
Variables (good rest : list pyval) (bad : pyval) (L : list (list Token)).
Hypothesis Henv : as_envelope v = Some (d, (good ++ bad :: rest)%list).
Hypothesis Hgood : traverse as_line good = Some L.

Lemma render_rich_stops (e : exn) :
  ColorhymnRich.rich_line (S (List.length good)) bad = Raise e ->
  ColorhymnRich.render_rich rt v []
  = (rich_header_of rt d :: [] :: numbered styled_row 1 L, Raise e).
Proof.
  intros Hbad. rewrite (render_rich_loop rt v d _ Henv), for_enum_app.
  rewrite (for_enum_rows as_line (ColorhymnRich.rich_line)
             styled_row (fun _ => true)
             (fun i x a Hx _ => rich_line_row i x a Hx)
             good L 1 _ Hgood (forallb_always _)).
  cbn [for_enum Nat.add]. unfold ebind at 1. unfold ebind at 1, lift at 1.
  now rewrite Hbad.
Qed.

Lemma render_ansi_stops (e : exn) :
  forallb (forallb (fun t => is_hex_color (color t))) L = true ->
  ColorhymnRich.ansi_line rt (S (List.length good)) bad = Raise e ->
  ColorhymnRich.render_ansi rt v []
  = (banner_of rt d :: numbered ansi_row 1 L, Raise e).
Proof.
  intros Hcolors Hbad.
  rewrite (render_ansi_loop rt v d _ Henv), for_enum_app.
  rewrite (for_enum_rows as_line (ColorhymnRich.ansi_line rt)
             ansi_row (forallb (fun t => is_hex_color (color t)))
             (ansi_line_row rt) good L 1 _ Hgood Hcolors).
  cbn [for_enum Nat.add]. unfold ebind at 1. unfold ebind at 1, lift at 1.
  now rewrite Hbad.
Qed.

Lemma render_log_stops (e : exn) (self : App) :
  truthy bad = true ->
  log_line (S (List.length good)) bad = Raise e ->
  data self = v ->
  render_log rt self
  = (mount_all (numbered styled_row 1 L)
       (info_bar_update (info_bar_of rt d) self), Raise e).
Proof.
  intros Htruthy Hbad Hdata.
  rewrite (render_log_loop rt v d _ Henv self Hdata), for_enum_app.
  rewrite (for_enum_mount good L 1 _ Hgood).
  cbn [for_enum Nat.add]. unfold ebind at 1. rewrite Htruthy.
  unfold ebind at 1, lift at 1. now rewrite Hbad.
Qed.
End FirstFailure.

(** X1. The renderers draw entry after entry and stop at the first one
    that raises: the header and the rows of the entries before it are
    already drawn, none of the entries after it is, and the exception is the
    one of that entry. *)
Theorem rows_before_the_failure (rt : Runtime) (v : pyval) (d : Document)
        (good rest : list pyval) (bad : pyval) (L : list (list Token))
        (e : exn) :
  as_envelope v = Some (d, (good ++ bad :: rest)%list) ->
  traverse as_line good = Some L ->
  (ColorhymnRich.rich_line (S (List.length good)) bad = Raise e ->
   ColorhymnRich.render_rich rt v []
   = (rich_header_of rt d :: [] :: numbered styled_row 1 L, Raise e))
  /\ (forallb (forallb (fun t => is_hex_color (color t))) L = true ->
      ColorhymnRich.ansi_line rt (S (List.length good)) bad = Raise e ->
      ColorhymnRich.render_ansi rt v []
      = (banner_of rt d :: numbered ansi_row 1 L, Raise e))
  /\ (truthy bad = true ->
      log_line (S (List.length good)) bad = Raise e ->
      forall self,
        data self = v ->
        render_log rt self
        = (mount_all (numbered styled_row 1 L)
             (info_bar_update (info_bar_of rt d) self), Raise e)).
Proof.
  intros Henv Hgood. repeat apply conj.
  - intros Hbad.
    exact (render_rich_stops rt v d good rest bad L Henv Hgood e Hbad).
  - intros Hcolors Hbad.
    exact (render_ansi_stops rt v d good rest bad L Henv Hgood e
             Hcolors Hbad).
  - intros Htruthy Hbad self Hdata.
    exact (render_log_stops rt v d good rest bad L Henv Hgood e self
             Htruthy Hbad Hdata).
Qed.

(** A second entry with a token of two elements: the first row is drawn,
    the third is not. *)
Lemma rows_before_the_failure_witness :
  as_envelope Cases.second_line_short
  = Some (Cases.critical_cool_doc,
          ([ PList [ Cases.token "word" "alpha" "#FF0000" ] ]
             ++ PList [ PList [PStr "word"; PStr "beta"] ]
             :: [ PList [ Cases.token "word" "gamma" "#0000FF" ] ])%list)
  /\ traverse as_line [ PList [ Cases.token "word" "alpha" "#FF0000" ] ]
     = Some [ [ Cases.alpha ] ]
  /\ ColorhymnRich.render_rich Json.runtime Cases.second_line_short []
     = ([ rich_header_of Json.runtime Cases.critical_cool_doc; [];
          [ ("    1 ", PStr "dim"); ("alpha", PStr "#FF0000") ] ],
        Raise (Builtin (UnpackCount 3 2))).
Proof.
  split; [ reflexivity | ]. split; [ reflexivity | ].
  exact (proj1 (rows_before_the_failure Json.runtime
                  Cases.second_line_short Cases.critical_cool_doc
                  [ PList [ Cases.token "word" "alpha" "#FF0000" ] ]
                  [ PList [ Cases.token "word" "gamma" "#0000FF" ] ]
                  (PList [ PList [PStr "word"; PStr "beta"] ])
                  [ [ Cases.alpha ] ] (Builtin (UnpackCount 3 2))
                  eq_refl eq_refl) eq_refl).
Defined.

(** ** An entry that counts as false *)

Lemma mount_all_app (rows more : list Rich.Text) (self : App) :
  mount_all (rows ++ more) self = mount_all more (mount_all rows self).
Proof. unfold mount_all. apply fold_left_app. Qed.

(** X2. An entry of [lines] that counts as false ([null], [false], [0], an
    empty string or object) is a blank row for the viewer, which goes on
    with the entries after it; the static renderers stop there when the
    entry cannot be iterated over. *)
Theorem false_entry_is_blank_for_the_viewer (rt : Runtime) (v : pyval)
        (d : Document) (before after : list pyval) (x : pyval)
        (L M : list (list Token)) :
  as_envelope v = Some (d, (before ++ x :: after)%list) ->
  traverse as_line before = Some L ->
  traverse as_line after = Some M ->
  truthy x = false ->
  (forall self,
      data self = v ->
      render_log rt self
      = (mount_all (numbered styled_row 1 (L ++ [] :: M)%list)
           (info_bar_update (info_bar_of rt d) self), Ok tt))
  /\ (forall e,
         iter x = Raise e ->
         ColorhymnRich.render_rich rt v []
         = (rich_header_of rt d :: [] :: numbered styled_row 1 L, Raise e)
         /\ (forallb (forallb (fun t => is_hex_color (color t))) L = true ->
             ColorhymnRich.render_ansi rt v []
             = (banner_of rt d :: numbered ansi_row 1 L, Raise e))).
Proof.
  intros Henv Hbefore Hafter Hfalse. split.
  - intros self Hdata.
    rewrite (render_log_loop rt v d _ Henv self Hdata), for_enum_app.
    rewrite (for_enum_mount before L 1 _ Hbefore).
    cbn [for_enum Nat.add]. unfold ebind at 1. rewrite Hfalse.
    unfold update at 1.
    rewrite (for_enum_mount after M _ _ Hafter).
    rewrite numbered_app, mount_all_app. cbn [numbered].
    rewrite (traverse_length _ _ _ Hbefore).
    reflexivity.
  - intros e Hiter. split.
    + apply (render_rich_stops rt v d before after x L Henv Hbefore e).
      unfold ColorhymnRich.rich_line. cbn [Rich.append bind].
      now rewrite Hiter.
    + intros Hcolors.
      apply (render_ansi_stops rt v d before after x L Henv Hbefore e
               Hcolors).
      unfold ColorhymnRich.ansi_line. now rewrite Hiter.
Qed.

(** A second entry that is [null]. *)
Lemma false_entry_is_blank_for_the_viewer_witness :
  log_container
    (fst (render_log Json.runtime
            (set_data Cases.second_line_null Cases.fresh)))
  = [ [ ("    1 ", PStr "dim"); ("alpha", PStr "#FF0000") ];
      [ ("    2 ", PStr "dim") ];
      [ ("    3 ", PStr "dim"); ("gamma", PStr "#0000FF") ] ]
  /\ snd (ColorhymnRich.render_rich Json.runtime Cases.second_line_null [])
     = Raise (Builtin (NotIterable PNone)).
Proof.
  destruct (false_entry_is_blank_for_the_viewer Json.runtime
              Cases.second_line_null Cases.critical_cool_doc
              [ PList [ Cases.token "word" "alpha" "#FF0000" ] ]
              [ PList [ Cases.token "word" "gamma" "#0000FF" ] ]
              PNone [ [ Cases.alpha ] ] [ [ Cases.gamma ] ]
              eq_refl eq_refl eq_refl eq_refl) as [Hlog Hstatic].
  split.
  - now rewrite (Hlog (set_data Cases.second_line_null Cases.fresh) eq_refl).
  - destruct (Hstatic (Builtin (NotIterable PNone)) eq_refl) as [-> _].
    reflexivity.
Defined.

(** ** Drawing only adds *)

Lemma extends_refl {W} (out : list W) : extends out out.
Proof. exists []. now rewrite app_nil_r. Qed.

Lemma extends_trans {W} (a b c : list W) :
  extends a b -> extends b c -> extends a c.
Proof.
  intros [x ->] [y ->]. exists (x ++ y)%list. now rewrite app_assoc.
Qed.

Lemma extends_one {W} (out : list W) (w : W) : extends out (out ++ [w])%list.
Proof. now exists [w]. Qed.

Lemma drawn_over_refl (self : App) : drawn_over self self.
Proof. repeat split. apply extends_refl. Qed.

Lemma drawn_over_trans (a b c : App) :
  drawn_over a b -> drawn_over b c -> drawn_over a c.
Proof.
  intros (H1 & H2 & H3 & H4 & H5 & H6) (K1 & K2 & K3 & K4 & K5 & K6).
  repeat split; try congruence. exact (extends_trans _ _ _ H1 K1).
Qed.

Section Within.
Variable St : Type.
Variable R : St -> St -> Prop.
Hypothesis R_refl : forall s, R s s.
Hypothesis R_trans : forall a b c, R a b -> R b c -> R a c.

Lemma within_lift {A} (r : result A) : within R (lift r).
Proof. intros s. apply R_refl. Qed.

Lemma within_update (f : St -> St) :
  (forall s, R s (f s)) -> within R (update f).
Proof. intros Hf s. apply Hf. Qed.

Lemma within_bind {A B} (m : eff St A) (k : A -> eff St B) :
  within R m -> (forall a, within R (k a)) -> within R (ebind m k).
Proof.
  intros Hm Hk s. unfold ebind. pose proof (Hm s) as Hs.
  destruct (m s) as [s' [a | e]]; cbn [fst] in *.
  - exact (R_trans _ _ _ Hs (Hk a s')).
  - exact Hs.
Qed.

Lemma within_for_enum (body : nat -> pyval -> eff St unit)
      (items : list pyval) :
  (forall i x, within R (body i x)) ->
  forall i, within R (for_enum i items body).
Proof.
  intros Hbody.
  induction items as [ | x items IH ]; intros i; cbn [for_enum].
  - intros s. apply R_refl.
  - apply within_bind; [ apply Hbody | intros _; apply IH ].
Qed.
End Within.

Lemma render_log_drawn_over (rt : Runtime) :
  within drawn_over (render_log rt).
Proof.
  intros self. unfold render_log.
  destruct (negb (truthy (data self))); [ apply drawn_over_refl | ].
  generalize (data self). intros loaded.
  match goal with
  | |- drawn_over self (fst (?m self)) =>
      revert self; change (within drawn_over m)
  end.
  pose proof drawn_over_refl as Hrefl. pose proof drawn_over_trans as Htrans.
  apply (within_bind _ _ Htrans);
    [ apply (within_lift _ _ Hrefl) | intros meta ].
  apply (within_bind _ _ Htrans);
    [ apply (within_lift _ _ Hrefl) | intros text ].
  apply (within_bind _ _ Htrans);
    [ apply within_update; intros s; repeat split; apply extends_refl
    | intros _ ].
  apply (within_bind _ _ Htrans);
    [ apply (within_lift _ _ Hrefl) | intros lines ].
  apply (within_for_enum _ _ Hrefl Htrans). intros i x.
  destruct (truthy x).
  - apply (within_bind _ _ Htrans);
      [ apply (within_lift _ _ Hrefl) | intros row ].
    apply within_update. intros s. repeat split. apply extends_one.
  - apply within_update. intros s. repeat split. apply extends_one.
Qed.

(** X3. Whatever the data, drawing never takes back or reorders what is
    already on the output: [render_rich] and [render_ansi] only add to what
    was printed before, and [render_log] only adds rows after the mounted
    ones; beside the info bar it touches neither the data, the notifications,
    the scroll position nor the exit flag. *)
Theorem drawing_only_adds (rt : Runtime) :
  (forall data out, extends out (fst (ColorhymnRich.render_rich rt data out)))
  /\ (forall data out,
         extends out (fst (ColorhymnRich.render_ansi rt data out)))
  /\ (forall self, drawn_over self (fst (render_log rt self))).
Proof.
  repeat apply conj.
  - intros data0. change (within extends (ColorhymnRich.render_rich rt data0)).
    unfold ColorhymnRich.render_rich.
    pose proof (@extends_refl Rich.Text) as Hrefl.
    pose proof (@extends_trans Rich.Text) as Htrans.
    apply (within_bind _ _ Htrans);
      [ apply (within_lift _ _ Hrefl) | intros meta ].
    apply (within_bind _ _ Htrans);
      [ apply (within_lift _ _ Hrefl) | intros header ].
    apply (within_bind _ _ Htrans);
      [ apply within_update; intros s; apply extends_one | intros _ ].
    apply (within_bind _ _ Htrans);
      [ apply within_update; intros s; apply extends_one | intros _ ].
    apply (within_bind _ _ Htrans);
      [ apply (within_lift _ _ Hrefl) | intros lines ].
    apply (within_for_enum _ _ Hrefl Htrans). intros i x.
    apply (within_bind _ _ Htrans);
      [ apply (within_lift _ _ Hrefl) | intros row ].
    apply within_update. intros s. apply extends_one.
  - intros data0. change (within extends (ColorhymnRich.render_ansi rt data0)).
    unfold ColorhymnRich.render_ansi.
    pose proof (@extends_refl string) as Hrefl.
    pose proof (@extends_trans string) as Htrans.
    apply (within_bind _ _ Htrans);
      [ apply (within_lift _ _ Hrefl) | intros meta ].
    apply (within_bind _ _ Htrans);
      [ apply (within_lift _ _ Hrefl) | intros banner ].
    apply (within_bind _ _ Htrans);
      [ apply within_update; intros s; apply extends_one | intros _ ].
    apply (within_bind _ _ Htrans);
      [ apply (within_lift _ _ Hrefl) | intros lines ].
    apply (within_for_enum _ _ Hrefl Htrans). intros i x.
    apply (within_bind _ _ Htrans);
      [ apply (within_lift _ _ Hrefl) | intros row ].
    apply within_update. intros s. apply extends_one.
  - apply render_log_drawn_over.
Qed.

(** ** The exit code of the static script *)

(** The body of [main] ends with exit code 0 or 1, with 0 exactly when it
    printed nothing on standard error; it never uses both back ends in one
    call, and with fewer than two arguments it answers without running the
    classifier. *)
Lemma main_exit_code (rt : Runtime) (argv : list string)
      (rich : bool) (c : child) :
  ((ColorhymnRich.exit_code (ColorhymnRich.main rt argv rich c) = 0%Z
    /\ ColorhymnRich.errors (ColorhymnRich.main rt argv rich c) = []
    /\ (2 <= List.length argv)%nat)
   \/ (ColorhymnRich.exit_code (ColorhymnRich.main rt argv rich c) = 1%Z
       /\ ColorhymnRich.errors (ColorhymnRich.main rt argv rich c) <> []))
  /\ (if rich
      then ColorhymnRich.printed (ColorhymnRich.main rt argv rich c) = []
      else ColorhymnRich.console (ColorhymnRich.main rt argv rich c) = [])
  /\ ((List.length argv < 2)%nat ->
      forall c',
        ColorhymnRich.main rt argv rich c = ColorhymnRich.main rt argv rich c'
        /\ ColorhymnRich.console (ColorhymnRich.main rt argv rich c) = []
        /\ ColorhymnRich.printed (ColorhymnRich.main rt argv rich c) = [])
  /\ (forall e,
         fst (ColorhymnRich.colorize_file rt (nth 1 argv "") c) = Raise e ->
         ColorhymnRich.console (ColorhymnRich.main rt argv rich c) = []
         /\ ColorhymnRich.printed (ColorhymnRich.main rt argv rich c) = []).
Proof.
  unfold ColorhymnRich.main.
  destruct argv as [ | script [ | path more ]]; cbn [List.length nth].
  - repeat apply conj.
    + right. split; [ reflexivity | discriminate ].
    + now destruct rich.
    + intros _ c'. repeat split.
    + intros e _. now split.
  - repeat apply conj.
    + right. split; [ reflexivity | discriminate ].
    + now destruct rich.
    + intros _ c'. repeat split.
    + intros e _. now split.
  - destruct (fst (ColorhymnRich.colorize_file rt path c)) as [data0 | e0].
    + destruct rich.
      * destruct (ColorhymnRich.render_rich rt data0 []) as [drawn [u | e]];
          cbn; repeat apply conj; try reflexivity; try (intros; lia);
          try discriminate.
        -- left. repeat split. lia.
        -- right. split; [ reflexivity | discriminate ].
      * destruct (ColorhymnRich.render_ansi rt data0 []) as [out [u | e]];
          cbn; repeat apply conj; try reflexivity; try (intros; lia);
          try discriminate.
        -- left. repeat split. lia.
        -- right. split; [ reflexivity | discriminate ].
    + cbn. repeat apply conj.
      * right. split; [ reflexivity | discriminate ].
      * now destruct rich.
      * intros H. lia.
      * intros e _. now split.
Qed.

(** X4. The static script ends with exit code 0 or 1.  With Rich installed
    the code is 0 exactly when nothing was printed on standard error.
    Without Rich the first line on standard error is the notice of the
    fallback, and the code is 0 exactly when nothing follows it; where the
    annotations of a function are evaluated when it is defined, the script
    then stops on the [NameError] of [Console] before [main] is called:
    nothing is drawn, and the code is 1 whatever the arguments.  A run never
    uses both back ends, the code is 0 only with a file argument, and with
    fewer than two arguments the classifier is not run. *)
Theorem exit_code_tells_errors (rt : Runtime) (installed eager : bool)
        (trace : string) (argv : list string) (c : child) :
  (ColorhymnRich.exit_code
     (ColorhymnRich.run_module rt installed eager trace argv c) = 0%Z
   \/ ColorhymnRich.exit_code
        (ColorhymnRich.run_module rt installed eager trace argv c) = 1%Z)
  /\ (if installed
      then ColorhymnRich.exit_code
             (ColorhymnRich.run_module rt installed eager trace argv c) = 0%Z
           <-> ColorhymnRich.errors
                 (ColorhymnRich.run_module rt installed eager trace argv c)
               = []
      else exists rest,
             ColorhymnRich.errors
               (ColorhymnRich.run_module rt installed eager trace argv c)
             = ColorhymnRich.fallback_line :: rest
             /\ (ColorhymnRich.exit_code
                   (ColorhymnRich.run_module rt installed eager trace argv c)
                 = 0%Z
                 <-> rest = []))
  /\ (installed = false ->
      eager = true ->
      ColorhymnRich.run_module rt installed eager trace argv c
      = {| ColorhymnRich.console := []; ColorhymnRich.printed := [];
           ColorhymnRich.errors := [ ColorhymnRich.fallback_line; trace ];
           ColorhymnRich.exit_code := 1 |})
  /\ (ColorhymnRich.exit_code
        (ColorhymnRich.run_module rt installed eager trace argv c) = 0%Z ->
      (2 <= List.length argv)%nat)
  /\ (if installed
      then ColorhymnRich.printed
             (ColorhymnRich.run_module rt installed eager trace argv c) = []
      else ColorhymnRich.console
             (ColorhymnRich.run_module rt installed eager trace argv c) = [])
  /\ ((List.length argv < 2)%nat ->
      forall c',
        ColorhymnRich.run_module rt installed eager trace argv c
        = ColorhymnRich.run_module rt installed eager trace argv c'
        /\ ColorhymnRich.console
             (ColorhymnRich.run_module rt installed eager trace argv c) = []
        /\ ColorhymnRich.printed
             (ColorhymnRich.run_module rt installed eager trace argv c) = [])
  /\ (forall e,
         fst (ColorhymnRich.colorize_file rt (nth 1 argv "") c) = Raise e ->
         ColorhymnRich.console
           (ColorhymnRich.run_module rt installed eager trace argv c) = []
         /\ ColorhymnRich.printed
              (ColorhymnRich.run_module rt installed eager trace argv c)
            = []).
Proof.
  unfold ColorhymnRich.run_module. destruct installed.
  - destruct (main_exit_code rt argv true c)
      as (Hcode & Hends & Hshort & Hfetch).
    refine (conj _ (conj _ (conj _ (conj _ (conj _ (conj _ _)))))).
    + destruct Hcode as [(H & _ & _) | (H & _)]; [ now left | now right ].
    + destruct Hcode as [(Hz & He & _) | (Ho & He)];
        [ now split | split; [ rewrite Ho; discriminate | ] ].
      intros H. now contradiction He.
    + discriminate.
    + destruct Hcode as [(_ & _ & H) | (Ho & _)];
        [ intros _; exact H | rewrite Ho; discriminate ].
    + exact Hends.
    + exact Hshort.
    + exact Hfetch.
  - destruct eager.
    + cbn. refine (conj _ (conj _ (conj _ (conj _ (conj _ (conj _ _)))))).
      * now right.
      * exists [trace]. repeat split; discriminate.
      * reflexivity.
      * discriminate.
      * reflexivity.
      * intros _ c'. repeat split.
      * intros e _. now split.
    + destruct (main_exit_code rt argv false c)
        as (Hcode & Hends & Hshort & Hfetch).
      cbn [ColorhymnRich.console ColorhymnRich.printed ColorhymnRich.errors
           ColorhymnRich.exit_code].
      refine (conj _ (conj _ (conj _ (conj _ (conj _ (conj _ _)))))).
      * destruct Hcode as [(H & _ & _) | (H & _)]; [ now left | now right ].
      * exists (ColorhymnRich.errors (ColorhymnRich.main rt argv false c)).
        split; [ reflexivity | ].
        destruct Hcode as [(Hz & He & _) | (Ho & He)];
          [ now split | split; [ rewrite Ho; discriminate | ] ].
        intros H. now contradiction He.
      * discriminate.
      * destruct Hcode as [(_ & _ & H) | (Ho & _)];
          [ intros _; exact H | rewrite Ho; discriminate ].
      * exact Hends.
      * intros Hlen c'. destruct (Hshort Hlen c') as (Hsame & Hc & Hp).
        rewrite <- Hsame. now repeat split.
      * exact Hfetch.
Qed.

(** ** A decoded value without [metadata] or without [lines] *)

(** X5. A decoded object without a [metadata] entry is refused before
    anything is drawn: the three renderers raise the [KeyError] of
    ['metadata'] and leave the output as it was; [main] then ends with exit
    code 1 and the viewer shows the error without touching its info bar. *)
Theorem missing_metadata_draws_nothing (rt : Runtime)
        (items : list (string * pyval)) :
  items <> [] ->
  assoc "metadata" items = None ->
  (forall out,
      ColorhymnRich.render_rich rt (PDict items) out
      = (out, Raise (Builtin (MissingKey "metadata"))))
  /\ (forall out,
         ColorhymnRich.render_ansi rt (PDict items) out
         = (out, Raise (Builtin (MissingKey "metadata"))))
  /\ (forall self,
         data self = PDict items ->
         render_log rt self = (self, Raise (Builtin (MissingKey "metadata"))))
  /\ (forall seconds p k self,
         Qle_bool seconds (inject_Z 30) = true ->
         returncode p = 0%Z ->
         Str.find "{" (stdout p) = Some k ->
         json_loads rt (Str.drop k (stdout p)) = Ok (PDict items) ->
         load_file rt (Exits seconds p) self
         = (notify ("Error: " ++ error_text rt (MissingKey "metadata"))
                   "error" (set_data (PDict items) self), Ended)
         /\ forall script path rich,
              ColorhymnRich.main rt [script; path] rich (Exits seconds p)
              = {| ColorhymnRich.console := [];
                   ColorhymnRich.printed := [];
                   ColorhymnRich.errors :=
                     [ "Error: " ++ error_text rt (MissingKey "metadata") ];
                   ColorhymnRich.exit_code := 1 |}).
Proof.
  intros Hitems Hmissing.
  assert (Hrich : forall out,
    ColorhymnRich.render_rich rt (PDict items) out
    = (out, Raise (Builtin (MissingKey "metadata")))).
  { intros out. unfold ColorhymnRich.render_rich.
    unfold ebind at 1, lift at 1. cbn [getitem]. now rewrite Hmissing. }
  assert (Hansi : forall out,
    ColorhymnRich.render_ansi rt (PDict items) out
    = (out, Raise (Builtin (MissingKey "metadata")))).
  { intros out. unfold ColorhymnRich.render_ansi.
    unfold ebind at 1, lift at 1. cbn [getitem]. now rewrite Hmissing. }
  assert (Hlog : forall self,
    data self = PDict items ->
    render_log rt self = (self, Raise (Builtin (MissingKey "metadata")))).
  { intros self Hdata. unfold render_log. rewrite Hdata.
    destruct items as [ | item items' ]; [ contradiction | ].
    cbn [truthy negb]. unfold ebind at 1, lift at 1. cbn [getitem].
    now rewrite Hmissing. }
  repeat apply conj.
  - exact Hrich.
  - exact Hansi.
  - exact Hlog.
  - intros seconds p k self Hintime Hcode Hfind Hloads. split.
    + unfold load_file, Subprocess.run. rewrite Hintime.
      cbv [load_file_try ebind lift update].
      rewrite Hcode. cbn [Z.eqb negb]. rewrite Hfind, Hloads.
      now rewrite (Hlog (set_data (PDict items) self) eq_refl).
    + intros script path rich. unfold ColorhymnRich.main.
      rewrite (colorize_file_completed rt seconds p Hintime path).
      rewrite Hfind, Hloads. cbn [fst].
      destruct rich; [ now rewrite Hrich | now rewrite Hansi ].
Qed.

(** An object that has lines and no metadata. *)
Lemma missing_metadata_draws_nothing_witness :
  ColorhymnRich.render_rich Json.runtime Cases.no_metadata []
  = ([], Raise (Builtin (MissingKey "metadata")))
  /\ render_log Json.runtime (set_data Cases.no_metadata Cases.fresh)
     = (set_data Cases.no_metadata Cases.fresh,
        Raise (Builtin (MissingKey "metadata"))).
Proof.
  destruct (missing_metadata_draws_nothing Json.runtime
              [ ("lines", PList []) ] ltac:(discriminate) eq_refl)
    as (Hstatic & _ & Hlog & _).
  split.
  - exact (Hstatic []).
  - exact (Hlog (set_data Cases.no_metadata Cases.fresh) eq_refl).
Defined.

(** X6. When the metadata is of the contract and [lines] is missing or
    cannot be iterated over, the header is already out when the renderers
    raise: [render_rich] has printed the header and the blank line,
    [render_ansi] the banner, [render_log] has replaced the info bar; no row
    is drawn. *)
Theorem missing_lines_after_the_header (rt : Runtime) (v meta : pyval)
        (d : Document) (e : exn) :
  getitem v "metadata" = Ok meta ->
  as_metadata meta = Some d ->
  (lines <- getitem v "lines" ;; iter lines) = Raise e ->
  ColorhymnRich.render_rich rt v [] = ([rich_header_of rt d; []], Raise e)
  /\ ColorhymnRich.render_ansi rt v [] = ([banner_of rt d], Raise e)
  /\ (forall self,
         data self = v ->
         render_log rt self
         = (info_bar_update (info_bar_of rt d) self, Raise e)).
Proof.
  intros Hmeta Hd Hlines.
  destruct (headers_of_metadata rt meta d Hd) as (Hh & Hi & Hb).
  repeat apply conj.
  - unfold ColorhymnRich.render_rich.
    unfold ebind at 1, lift at 1. rewrite Hmeta.
    unfold ebind at 1, lift at 1. rewrite Hh.
    unfold ebind at 1, update at 1. unfold ebind at 1, update at 1.
    unfold ebind at 1, lift at 1. now rewrite Hlines.
  - unfold ColorhymnRich.render_ansi.
    unfold ebind at 1, lift at 1. rewrite Hmeta.
    unfold ebind at 1, lift at 1. rewrite Hb.
    unfold ebind at 1, update at 1.
    unfold ebind at 1, lift at 1. now rewrite Hlines.
  - intros self Hdata. unfold render_log. rewrite Hdata.
    rewrite (getitem_truthy v meta _ Hmeta). cbn [negb].
    unfold ebind at 1, lift at 1. rewrite Hmeta.
    unfold ebind at 1, lift at 1. rewrite Hi.
    unfold ebind at 1, update at 1.
    unfold ebind at 1, lift at 1. now rewrite Hlines.
Qed.

(** An object that has metadata and no lines. *)
Lemma missing_lines_after_the_header_witness :
  ColorhymnRich.render_ansi Json.runtime Cases.no_lines []
  = ([ "━━━ app.log │ 3 lines │ temp: critical │ mood: cool ━━━" ++ Str.LF ],
     Raise (Builtin (MissingKey "lines"))).
Proof.
  exact (proj1 (proj2 (missing_lines_after_the_header Json.runtime
                         Cases.no_lines Examples.critical_cool
                         Cases.critical_cool_doc
                         (Builtin (MissingKey "lines"))
                         eq_refl eq_refl eq_refl))).
Defined.

(** ** Metadata that is not text *)

(** X7. The raw banner formats whatever the four metadata fields hold, but
    the styled renderers need strings for the temperature and the mood: a
    temperature that is not a string makes both raise (a list or an object
    at the color lookup, anything else when it is appended), and so does a
    mood that is not a string, which [render_rich] refuses when it appends
    it and [render_log] already at its own color lookup. *)
Theorem metadata_that_is_not_text (rt : Runtime) (meta f n t m : pyval) :
  getitem meta "filename" = Ok f ->
  getitem meta "line_count" = Ok n ->
  getitem meta "temperature" = Ok t ->
  getitem meta "mood" = Ok m ->
  ColorhymnRich.ansi_banner rt meta
  = Ok ("━━━ " ++ py_str rt f ++ " │ " ++ py_str rt n
          ++ " lines │ temp: " ++ py_str rt t ++ " │ mood: " ++ py_str rt m
          ++ " ━━━" ++ Str.LF)
  /\ ((forall s, t <> PStr s) ->
      ColorhymnRich.rich_header rt meta = Raise (Builtin (lookup_refusal t))
      /\ info_text rt meta = Raise (Builtin (lookup_refusal t)))
  /\ (forall s,
         t = PStr s ->
         (forall s', m <> PStr s') ->
         ColorhymnRich.rich_header rt meta = Raise (Builtin (NotText m))
         /\ info_text rt meta = Raise (Builtin (lookup_refusal m))).
Proof.
  intros Hf Hn Ht Hm. repeat apply conj.
  - unfold ColorhymnRich.ansi_banner. now rewrite Hf, Hn, Ht, Hm.
  - intros Hnot. split.
    + unfold ColorhymnRich.rich_header. rewrite Hf, Hn, Ht.
      cbn [bind Rich.append].
      destruct t; try reflexivity. now contradiction (Hnot s).
    + unfold info_text. rewrite Hf, Hn, Ht. cbn [bind Rich.append].
      destruct t; try reflexivity. now contradiction (Hnot s).
  - intros s -> Hnot. split.
    + unfold ColorhymnRich.rich_header. rewrite Hf, Hn, Ht, Hm.
      cbn [bind Rich.append]. rewrite dict_get_styles.
      cbn [bind Rich.append].
      destruct m; try reflexivity. now contradiction (Hnot s0).
    + unfold info_text. rewrite Hf, Hn, Ht, Hm.
      cbn [bind Rich.append]. rewrite dict_get_colors.
      cbn [bind Rich.append].
      destruct m; try reflexivity. now contradiction (Hnot s0).
Qed.

(** A temperature that is the number 5. *)
Lemma metadata_that_is_not_text_witness :
  ColorhymnRich.ansi_banner Json.runtime Cases.numeric_temperature
  = Ok ("━━━ app.log │ 3 lines │ temp: 5 │ mood: cool ━━━" ++ Str.LF)
  /\ ColorhymnRich.rich_header Json.runtime Cases.numeric_temperature
     = Raise (Builtin (NotText (PInt 5))).
Proof.
  destruct (metadata_that_is_not_text Json.runtime Cases.numeric_temperature
              (PStr "app.log") (PInt 3) (PInt 5) (PStr "cool")
              eq_refl eq_refl eq_refl eq_refl) as (Hraw & Hstyled & _).
  split; [ exact Hraw | ].
  exact (proj1 (Hstyled ltac:(discriminate))).
Defined.

(** ** The two back ends of the static script *)









(** ** What the keys leave alone *)

(** X9. Once the application is mounted, no sequence of keys of
    [BINDINGS] changes what was loaded and drawn: the data, the info bar,
    the rows and the file path stay as [on_mount] left them, whether or not
    the application has exited on the way.  The notifications are those of
    the load followed by search warnings, no more than the presses of the
    search key, and one per press when the application has not exited by the
    end. *)
Theorem keys_leave_the_document (rt : Runtime) (fw : Framework)
        (path : string) (height : Z) (c : child) (keys : list string) :
  Forall (fun key => bound key = true) keys ->
  same_content (on_mount rt c (new_app path height))
               (run rt fw path height c keys)
  /\ (exists n,
         (n <= searches keys)%nat
         /\ notifications (run rt fw path height c keys)
            = (notifications (on_mount rt c (new_app path height))
                 ++ repeat search_warning n)%list)
  /\ (exited (run rt fw path height c keys) = false ->
      notifications (run rt fw path height c keys)
      = (notifications (on_mount rt c (new_app path height))
           ++ repeat search_warning (searches keys))%list).
Proof.
  intros Hkeys. unfold run.
  set (mounted := on_mount rt c (new_app path height)).
  destruct (refresh_same_content fw mounted) as [Hshown Hnotes].
  destruct (keys_content_and_warnings fw keys (refresh fw mounted) Hkeys)
    as (Hsame & n & Hle & Hn & Hall).
  rewrite Hnotes in Hn. split; [ | split ].
  - exact (same_content_trans _ _ _ Hshown Hsame).
  - exists n. now split.
  - intros Halive. now rewrite Hn, (Hall Halive).
Qed.

(** Down, search, bottom, then [q] and a search that comes too late: what
    was loaded and drawn stays. *)
Lemma keys_leave_the_document_witness :
  Forall (fun key => bound key = true) ["j"; "/"; "G"; "q"; "/"]
  /\ same_content
       (on_mount Json.runtime
          (Examples.exits_with 0 Examples.ten_claimed_output "")
          (new_app "app.log" 20))
       (run Json.runtime Cases.textual "app.log" 20
          (Examples.exits_with 0 Examples.ten_claimed_output "")
          ["j"; "/"; "G"; "q"; "/"]).
Proof.
  assert (Hkeys : Forall (fun key => bound key = true)
                         ["j"; "/"; "G"; "q"; "/"])
    by (repeat constructor).
  split; [ exact Hkeys | ].
  exact (proj1 (keys_leave_the_document Json.runtime Cases.textual "app.log"
                  20 (Examples.exits_with 0 Examples.ten_claimed_output "")
                  ["j"; "/"; "G"; "q"; "/"] Hkeys)).
Defined.

(** ** The two scripts, fetching *)

Lemma notify_data (msg sev : string) (self : App) :
  data (notify msg sev self) = data self.
Proof. reflexivity. Qed.

(** X10. When the classifier does not exit with a non-zero status, the
    viewer and the static script agree on the fetch: what [colorize_file]
    returns is what [load_file] stores in [self.data], and where
    [colorize_file] raises, [load_file] keeps the data it had, mounts no row
    and shows one error notification; the child ends in the same way. *)
Theorem viewer_loads_what_the_static_script_gets (rt : Runtime)
        (path : string) (c : child) (self : App) :
  (forall seconds p, c = Exits seconds p -> returncode p = 0%Z) ->
  snd (load_file rt c self) = snd (ColorhymnRich.colorize_file rt path c)
  /\ match fst (ColorhymnRich.colorize_file rt path c) with
     | Ok v => data (fst (load_file rt c self)) = v
     | Raise e =>
         data (fst (load_file rt c self)) = data self
         /\ log_container (fst (load_file rt c self)) = log_container self
         /\ exists msg,
              notifications (fst (load_file rt c self))
              = (notifications self
                   ++ [{| message := msg; severity := "error" |}])%list
     end.
Proof.
  intros Hcode.
  unfold load_file, ColorhymnRich.colorize_file, Subprocess.run.
  destruct c as [ e | seconds p | ].
  - cbn. split; [ reflexivity | ].
    destruct e; cbn; repeat split; eexists; reflexivity.
  - specialize (Hcode seconds p eq_refl).
    destruct (Qle_bool seconds (inject_Z 30)).
    + cbv [load_file_try ebind lift update bind]. cbn [fst snd].
      rewrite Hcode. cbn [Z.eqb negb]. split; [ reflexivity | ].
      destruct (Str.find "{" (stdout p)) as [k | ].
      * destruct (json_loads rt (Str.drop k (stdout p))) as [v | e].
        -- destruct (render_log_drawn_over rt (set_data v self))
             as (_ & Hdata & _).
           destruct (render_log rt (set_data v self)) as [self' [u | e]];
             cbn [fst] in Hdata; [ exact Hdata | ].
           destruct e; exact Hdata.
        -- destruct e; cbn; repeat split; eexists; reflexivity.
      * cbn. repeat split. eexists. reflexivity.
    + cbn. repeat split. eexists. reflexivity.
  - cbn. repeat split. eexists. reflexivity.
Qed.

(** The classifier that prints the two-line document. *)
Lemma viewer_loads_what_the_static_script_gets_witness :
  data (fst (load_file Json.runtime
               (Examples.exits_with 0 Examples.ten_claimed_output "")
               Cases.fresh))
  = Examples.ten_claimed.
Proof.
  exact (proj2 (viewer_loads_what_the_static_script_gets Json.runtime
                  "app.log"
                  (Examples.exits_with 0 Examples.ten_claimed_output "")
                  Cases.fresh
                  (fun seconds p H =>
                     match H in (_ = c)
                           return match c with
                                  | Exits _ q => returncode q = 0%Z
                                  | _ => True
                                  end
                     with eq_refl => eq_refl end))).
Defined.

(** X11. An answer that decodes to a value counting as false (the empty
    object) is taken silently by the viewer: the data is stored, nothing is
    drawn, nothing is notified.  The static script, given the empty object,
    ends with exit code 1 on the [KeyError] of ['metadata']. *)
Theorem empty_answer_is_silent_in_the_viewer (rt : Runtime) (seconds : Q)
        (p : CompletedProcess) (k : nat) (v : pyval) (self : App) :
  Qle_bool seconds (inject_Z 30) = true ->
  returncode p = 0%Z ->
  Str.find "{" (stdout p) = Some k ->
  json_loads rt (Str.drop k (stdout p)) = Ok v ->
  truthy v = false ->
  load_file rt (Exits seconds p) self = (set_data v self, Ended)
  /\ (v = PDict [] ->
      forall script path rich,
        ColorhymnRich.main rt [script; path] rich (Exits seconds p)
        = {| ColorhymnRich.console := [];
             ColorhymnRich.printed := [];
             ColorhymnRich.errors :=
               [ "Error: " ++ error_text rt (MissingKey "metadata") ];
             ColorhymnRich.exit_code := 1 |}).
Proof.
  intros Hintime Hcode Hfind Hloads Hfalse. split.
  - unfold load_file, Subprocess.run. rewrite Hintime.
    cbv [load_file_try ebind lift update].
    rewrite Hcode. cbn [Z.eqb negb]. rewrite Hfind, Hloads.
    unfold render_log. cbn [data set_data]. now rewrite Hfalse.
  - intros -> script path rich. unfold ColorhymnRich.main.
    rewrite (colorize_file_completed rt seconds p Hintime path).
    rewrite Hfind, Hloads. cbn [fst]. now destruct rich.
Qed.

(** The classifier that prints [{}]. *)
Lemma empty_answer_is_silent_in_the_viewer_witness :
  load_file Json.runtime (Examples.exits_with 0 "{}" "") Cases.fresh
  = (set_data (PDict []) Cases.fresh, Ended)
  /\ ColorhymnRich.exit_code
       (ColorhymnRich.main Json.runtime ["colorhymn_rich.py"; "app.log"]
          true (Examples.exits_with 0 "{}" ""))
     = 1%Z.
Proof.
  destruct (empty_answer_is_silent_in_the_viewer Json.runtime (1 # 2)
              {| returncode := 0; stdout := "{}"; stderr := "" |}
              0%nat (PDict []) Cases.fresh
              eq_refl eq_refl eq_refl eq_refl eq_refl) as [Hlog Hmain].
  split; [ exact Hlog | ].
  unfold Examples.exits_with.
  now rewrite (Hmain eq_refl "colorhymn_rich.py" "app.log" true).
Defined.

(** X12. In both scripts the text that precedes the first brace of the
    standard output has no effect: with or without it, the fetch gives the
    same result. *)
Theorem text_before_the_brace_is_dropped (rt : Runtime)
        (path pre rest err : string) (code : Z) (seconds : Q) (self : App) :
  Str.occurs "{" pre = false ->
  ColorhymnRich.colorize_file rt path
    (Exits seconds {| returncode := code; stdout := pre ++ String "{" rest;
                      stderr := err |})
  = ColorhymnRich.colorize_file rt path
      (Exits seconds {| returncode := code; stdout := String "{" rest;
                        stderr := err |})
  /\ load_file rt
       (Exits seconds {| returncode := code; stdout := pre ++ String "{" rest;
                         stderr := err |}) self
     = load_file rt
         (Exits seconds {| returncode := code; stdout := String "{" rest;
                           stderr := err |}) self.
Proof.
  intros Hpre. destruct (find_after_prefix "{" pre rest Hpre) as [Hfind Hdrop].
  split.
  - unfold ColorhymnRich.colorize_file, Subprocess.run.
    destruct (Qle_bool seconds (inject_Z 30)); [ | reflexivity ].
    cbn [bind stdout stderr]. rewrite Hfind, Hdrop. reflexivity.
  - unfold load_file, Subprocess.run.
    destruct (Qle_bool seconds (inject_Z 30)); [ | reflexivity ].
    cbv [load_file_try ebind lift update]. cbn [returncode stdout stderr].
    destruct (negb (code =? 0)%Z); [ reflexivity | ].
    rewrite Hfind, Hdrop. reflexivity.
Qed.

(** A compiler warning before the document. *)
Lemma text_before_the_brace_is_dropped_witness :
  ColorhymnRich.colorize_file Json.runtime "app.log"
    (Exits (1 # 2) {| returncode := 0;
                      stdout := ("warning: foo" ++ Str.LF) ++ "{}";
                      stderr := "" |})
  = (Ok (PDict []), Ended).
Proof.
  rewrite (proj1 (text_before_the_brace_is_dropped Json.runtime "app.log"
                    ("warning: foo" ++ Str.LF) "}" "" 0 (1 # 2) Cases.fresh
                    eq_refl)).
  reflexivity.
Defined.

(** ** Drawing again *)

(** X13. [render_log] does not clear the container: drawing a document of
    the contract a second time mounts its rows a second time, after the
    first ones. *)
Theorem drawing_twice_doubles_the_rows (rt : Runtime) (self : App)
        (d : Document) :
  as_document (data self) = Some d ->
  snd (render_log rt (fst (render_log rt self))) = Ok tt
  /\ log_container (fst (render_log rt (fst (render_log rt self))))
     = (log_container self ++ numbered styled_row 1 (lines d)
          ++ numbered styled_row 1 (lines d))%list
  /\ info_bar (fst (render_log rt (fst (render_log rt self))))
     = info_bar_of rt d.
Proof.
  intros Hdoc.
  rewrite (render_log_document rt (data self) d Hdoc self eq_refl).
  cbn [fst].
  set (once := mount_all (numbered styled_row 1 (lines d))
                 (info_bar_update (info_bar_of rt d) self)).
  assert (Honce : data once = data self).
  { unfold once.
    now destruct (mount_all_rows (numbered styled_row 1 (lines d))
                    (info_bar_update (info_bar_of rt d) self))
      as (_ & _ & _ & -> & _). }
  rewrite (render_log_document rt (data self) d Hdoc once Honce).
  cbn [fst snd]. repeat apply conj.
  - reflexivity.
  - destruct (mount_all_rows (numbered styled_row 1 (lines d))
                (info_bar_update (info_bar_of rt d) once)) as (-> & _).
    cbn [log_container info_bar_update]. unfold once.
    destruct (mount_all_rows (numbered styled_row 1 (lines d))
                (info_bar_update (info_bar_of rt d) self)) as (-> & _).
    cbn [log_container info_bar_update]. now rewrite <- app_assoc.
  - now destruct (mount_all_rows (numbered styled_row 1 (lines d))
                    (info_bar_update (info_bar_of rt d) once))
      as (_ & _ & _ & _ & ->).
Qed.

(** The two-line document, drawn twice: four rows. *)
Lemma drawing_twice_doubles_the_rows_witness :
  List.length
    (log_container
       (fst (render_log Json.runtime
               (fst (render_log Json.runtime
                       (set_data Examples.ten_claimed Cases.fresh))))))
  = 4%nat.
Proof.
  destruct (drawing_twice_doubles_the_rows Json.runtime
              (set_data Examples.ten_claimed Cases.fresh)
              Examples.ten_claimed_doc eq_refl) as (_ & -> & _).
  reflexivity.
Defined.
